(** * DxilRuntimeReflection.h: the zero-copy readers of the RDAT blob

    A shallow embedding of the reader classes of namespace
    [hlsl::DXIL::RDAT] (include/dxc/HLSL/DxilRuntimeReflection.h) and the
    properties of their accessors.

    Conventions.
    - A [uint32_t] is a [Z] in [0, 2^32); arithmetic on it wraps
      ([add32]).  A [uint64_t] is a [Z] in [0, 2^64).
    - A C++ pointer into an array is a [ptr]: the array it points into and
      an element index.  Pointer arithmetic moves the index and never
      fails; reading through a pointer ([load]) is partial, and [None]
      stands for the undefined behaviour of an out-of-bounds read.
    - Every class is a module holding the record of its data members and
      its member functions under their own names.  A member function that
      dereferences a pointer returns an [option].
    - [_Analysis_assume_] is a static-analysis annotation; it expands to
      nothing and has no counterpart here. *)

From Stdlib Require Import ZArith Lia.
From stdpp Require Import base option list gmap.

Local Open Scope Z_scope.

(** ** Machine integers *)

Definition is_u32 (z : Z) : Prop := 0 ≤ z < 2 ^ 32.
Definition is_u64 (z : Z) : Prop := 0 ≤ z < 2 ^ 64.

Definition wrap32 (z : Z) : Z := z mod 2 ^ 32.
Definition wrap64 (z : Z) : Z := z mod 2 ^ 64.

(** [a + b] and [a++] on [uint32_t]. *)
Definition add32 (a b : Z) : Z := wrap32 (a + b).

(** [a << n] on [uint64_t]. *)
Definition shl64 (a n : Z) : Z := wrap64 (Z.shiftl a n).

(** Modelled from the spec: [UINT_MAX] comes from the platform's
    <climits>, which is not among the sources; the spec calls the absent
    sentinel the maximum representable u32. *)
Definition UINT_MAX : Z := 4294967295.

(** ** Pointers into arrays *)

Record ptr (A : Type) := Ptr { buffer : list A; index : Z }.
Arguments Ptr {A} buffer index.
Arguments buffer {A} p.
Arguments index {A} p.

(** [nullptr]: no element can be read through it. *)
Definition nullptr {A : Type} : ptr A := Ptr [] 0.

(** [p + i] and [&p[i]]. *)
Definition ptr_add {A : Type} (p : ptr A) (i : Z) : ptr A :=
  Ptr (buffer p) (index p + i).

(** [*p]. *)
Definition load {A : Type} (p : ptr A) : option A :=
  if decide (0 ≤ index p) then buffer p !! Z.to_nat (index p) else None.

(** The elements of [l] lie in memory from [p] on. *)
Definition array_at {A : Type} (p : ptr A) (l : list A) : Prop :=
  ∀ (i : nat) (x : A), l !! i = Some x → load (ptr_add p (Z.of_nat i)) = Some x.

#[global] Instance byte_eq_dec : EqDecision Byte.byte := Byte.byte_eq_dec.

(** The NUL-terminated string a [const char *] denotes: the bytes from the
    pointer up to, and without, the next NUL; undefined when the buffer
    ends first. *)
Fixpoint until_nul (bs : list Byte.byte) : option (list Byte.byte) :=
  match bs with
  | [] => None
  | b :: bs' =>
      if Byte.byte_eq_dec b Byte.x00 then Some []
      else cons b <$> until_nul bs'
  end.

Definition c_str (p : ptr Byte.byte) : option (list Byte.byte) :=
  if decide (0 ≤ index p) then until_nul (drop (Z.to_nat (index p)) (buffer p))
  else None.

(** ** namespace hlsl::DXIL *)

Module DXIL.

(** DxilConstants.h is not among the sources.  The encoding of the four
    enumerators of [enum class ResourceClass] that the reader compares
    against is therefore a parameter of the development. *)
Class ResourceClass := {
  CBuffer : Z;
  Sampler : Z;
  SRV : Z;
  UAV : Z
}.

(** The enumerators are distinct 32-bit values. *)
Definition well_formed (RC : ResourceClass) : Prop :=
  NoDup [CBuffer; Sampler; SRV; UAV] ∧
  Forall is_u32 [CBuffer; Sampler; SRV; UAV].

(** One encoding, used to run the readers on concrete tables. *)
Definition sample_encoding : ResourceClass :=
  {| SRV := 0; UAV := 1; CBuffer := 2; Sampler := 3 |}.

End DXIL.

(** ** class IndexTableReader *)

Module IndexTableReader.

Record IndexRow := mkIndexRow { m_values : ptr Z; m_count : Z }.

Definition Count (row : IndexRow) : Z := m_count row.
Definition At (row : IndexRow) (i : Z) : option Z :=
  load (ptr_add (m_values row) i).

Record t := mk { m_table : ptr Z; m_size : Z }.

Definition default : t := mk nullptr 0.

Definition SetTable (rd : t) (table : ptr Z) : t := mk table (m_size rd).
Definition SetSize (rd : t) (size : Z) : t := mk (m_table rd) size.

(** [IndexRow(&m_table[i] + 1, m_table[i])] *)
Definition getRow (rd : t) (i : Z) : option IndexRow :=
  count ← load (ptr_add (m_table rd) i);
  Some (mkIndexRow (ptr_add (ptr_add (m_table rd) i) 1) count).

End IndexTableReader.

(** ** class StringTableReader *)

Module StringTableReader.

Record t := mk { m_table : ptr Byte.byte; m_size : Z }.

Definition default : t := mk nullptr 0.

(** [return m_table + offset;] *)
Definition Get (rd : t) (offset : Z) : ptr Byte.byte :=
  ptr_add (m_table rd) offset.

End StringTableReader.

(** ** The records of the resource and function tables *)

Record RuntimeDataResourceInfo := mkResourceInfo { Class : Z;
  Kind : Z;
  ID : Z;
  Space : Z;
  LowerBound : Z;
  UpperBound : Z;
  ResourceName : Z;   (* [Name] *)
  Flags : Z
}.

Record RuntimeDataFunctionInfo := mkFunctionInfo {
  Name : Z;
  UnmangledName : Z;
  Resources : Z;
  FunctionDependencies : Z;
  ShaderKind : Z;
  PayloadSizeInBytes : Z;
  AttributeSizeInBytes : Z;
  FeatureInfo1 : Z;
  FeatureInfo2 : Z;
  ShaderStageFlag : Z;
  MinShaderTarget : Z
}.

(** ** struct RuntimeDataContext

    A [RuntimeDataContext *] is an address in a store of contexts; the
    readers and the views keep the address, never the context.  Address 0
    is the null pointer.  The two table readers are declared before the
    context that refers to them, as in the header; their member functions
    follow further down.  The context's own four pointers are read-only
    links: [None] is a null link. *)

Definition addr := N.

Module ResourceTableReaderFields.
Record t := mk {
  m_ResourceInfo : ptr RuntimeDataResourceInfo;
  m_Context : addr;
  m_CBufferCount : Z;
  m_SamplerCount : Z;
  m_SRVCount : Z;
  m_UAVCount : Z
}.
End ResourceTableReaderFields.

Module FunctionTableReaderFields.
Record t := mk {
  m_infos : ptr RuntimeDataFunctionInfo;
  m_count : Z;
  m_context : addr
}.
End FunctionTableReaderFields.

Record RuntimeDataContext := mkContext {
  pStringTableReader : option StringTableReader.t;
  pIndexTableReader : option IndexTableReader.t;
  pResourceTableReader : option ResourceTableReaderFields.t;
  pFunctionTableReader : option FunctionTableReaderFields.t
}.

Abbreviation store := (gmap addr RuntimeDataContext).

(** [*m_Context] *)
Definition deref (h : store) (a : addr) : option RuntimeDataContext :=
  if decide (a = 0%N) then None else h !! a.

(** ** class ResourceReader *)

Module ResourceReader.

Record t := mk {
  m_ResourceInfo : ptr RuntimeDataResourceInfo;
  m_Context : addr
}.

Definition GetResourceClass (r : t) : option Z := Class <$> load (m_ResourceInfo r).
Definition GetSpace (r : t) : option Z := Space <$> load (m_ResourceInfo r).
Definition GetLowerBound (r : t) : option Z := LowerBound <$> load (m_ResourceInfo r).
Definition GetUpperBound (r : t) : option Z := UpperBound <$> load (m_ResourceInfo r).
Definition GetResourceKind (r : t) : option Z := Kind <$> load (m_ResourceInfo r).
Definition GetID (r : t) : option Z := ID <$> load (m_ResourceInfo r).
Definition GetName (h : store) (r : t) : option (ptr Byte.byte) :=
  ctx ← deref h (m_Context r);
  strings ← pStringTableReader ctx;
  info ← load (m_ResourceInfo r);
  Some (StringTableReader.Get strings (ResourceName info)).
Definition GetFlags (r : t) : option Z := Flags <$> load (m_ResourceInfo r).

End ResourceReader.

(** ** class ResourceTableReader *)

Module ResourceTableReader.
Include ResourceTableReaderFields.

Section Tally.
Context {RC : DXIL.ResourceClass}.

(** The body of the construction scan: the if/else-if chain on
    [curPtr->Class]. *)
Definition tally (rd : t) (cls : Z) : t :=
  if decide (cls = DXIL.CBuffer) then
    mk (m_ResourceInfo rd) (m_Context rd)
       (add32 (m_CBufferCount rd) 1) (m_SamplerCount rd)
       (m_SRVCount rd) (m_UAVCount rd)
  else if decide (cls = DXIL.Sampler) then
    mk (m_ResourceInfo rd) (m_Context rd)
       (m_CBufferCount rd) (add32 (m_SamplerCount rd) 1)
       (m_SRVCount rd) (m_UAVCount rd)
  else if decide (cls = DXIL.SRV) then
    mk (m_ResourceInfo rd) (m_Context rd)
       (m_CBufferCount rd) (m_SamplerCount rd)
       (add32 (m_SRVCount rd) 1) (m_UAVCount rd)
  else if decide (cls = DXIL.UAV) then
    mk (m_ResourceInfo rd) (m_Context rd)
       (m_CBufferCount rd) (m_SamplerCount rd)
       (m_SRVCount rd) (add32 (m_UAVCount rd) 1)
  else rd.

(** [for (uint32_t i = ...; i < count; ++i)], from the current [i];
    [fuel] bounds the number of iterations. *)
Fixpoint scan (fuel : nat) (ptr : ptr RuntimeDataResourceInfo)
    (count i : Z) (rd : t) : option t :=
  if decide (i < count) then
    match fuel with
    | O => None
    | S fuel' =>
        cur ← load (ptr_add ptr i);
        scan fuel' ptr count (add32 i 1) (tally rd (Class cur))
    end
  else Some rd.

(** A [uint32_t] counter below [count] reaches it within [count]
    steps. *)
Definition SetResourceInfo (rd : t) (ptr : ptr RuntimeDataResourceInfo)
    (count : Z) : option t :=
  scan (Z.to_nat count) ptr count 0 (mk ptr (m_Context rd) 0 0 0 0).
End Tally.

Definition default : t := mk nullptr 0%N 0 0 0 0.

Definition SetContext (rd : t) (context : addr) : t :=
  mk (m_ResourceInfo rd) context (m_CBufferCount rd) (m_SamplerCount rd)
     (m_SRVCount rd) (m_UAVCount rd).

Definition GetNumResources (rd : t) : Z :=
  add32 (add32 (add32 (m_CBufferCount rd) (m_SamplerCount rd))
               (m_SRVCount rd))
        (m_UAVCount rd).

Definition GetItem (rd : t) (i : Z) : ResourceReader.t :=
  ResourceReader.mk (ptr_add (m_ResourceInfo rd) i) (m_Context rd).

Definition GetNumCBuffers (rd : t) : Z := m_CBufferCount rd.
Definition GetCBuffer (rd : t) (i : Z) : ResourceReader.t :=
  ResourceReader.mk (ptr_add (m_ResourceInfo rd) i) (m_Context rd).

Definition GetNumSamplers (rd : t) : Z := m_SamplerCount rd.
Definition GetSampler (rd : t) (i : Z) : ResourceReader.t :=
  let offset := add32 (m_CBufferCount rd) i in
  ResourceReader.mk (ptr_add (m_ResourceInfo rd) offset) (m_Context rd).

Definition GetNumSRVs (rd : t) : Z := m_SRVCount rd.
Definition GetSRV (rd : t) (i : Z) : ResourceReader.t :=
  let offset := add32 (add32 (m_CBufferCount rd) (m_SamplerCount rd)) i in
  ResourceReader.mk (ptr_add (m_ResourceInfo rd) offset) (m_Context rd).

Definition GetNumUAVs (rd : t) : Z := m_UAVCount rd.
Definition GetUAV (rd : t) (i : Z) : ResourceReader.t :=
  let offset :=
    add32 (add32 (add32 (m_CBufferCount rd) (m_SamplerCount rd))
                 (m_SRVCount rd)) i in
  ResourceReader.mk (ptr_add (m_ResourceInfo rd) offset) (m_Context rd).

End ResourceTableReader.

(** ** class FunctionReader *)

Module FunctionReader.

Record t := mk {
  m_RuntimeDataFunctionInfo : ptr RuntimeDataFunctionInfo;
  m_Context : addr
}.

Definition default : t := mk nullptr 0%N.

(** [m_Context->pStringTableReader], and likewise for the other links. *)
Definition strings (h : store) (f : t) : option StringTableReader.t :=
  deref h (m_Context f) ≫= pStringTableReader.
Definition indices (h : store) (f : t) : option IndexTableReader.t :=
  deref h (m_Context f) ≫= pIndexTableReader.
Definition resources (h : store) (f : t) : option ResourceTableReader.t :=
  deref h (m_Context f) ≫= pResourceTableReader.

Definition GetName (h : store) (f : t) : option (ptr Byte.byte) :=
  st ← strings h f;
  info ← load (m_RuntimeDataFunctionInfo f);
  Some (StringTableReader.Get st (Name info)).

Definition GetUnmangledName (h : store) (f : t) : option (ptr Byte.byte) :=
  st ← strings h f;
  info ← load (m_RuntimeDataFunctionInfo f);
  Some (StringTableReader.Get st (UnmangledName info)).

Definition GetFeatureFlag (f : t) : option Z :=
  info ← load (m_RuntimeDataFunctionInfo f);
  let flag := shl64 (FeatureInfo2 info) 32 in
  Some (Z.lor flag (FeatureInfo1 info)).

Definition GetFeatureInfo1 (f : t) : option Z :=
  FeatureInfo1 <$> load (m_RuntimeDataFunctionInfo f).
Definition GetFeatureInfo2 (f : t) : option Z :=
  FeatureInfo2 <$> load (m_RuntimeDataFunctionInfo f).
Definition GetShaderStageFlag (f : t) : option Z :=
  ShaderStageFlag <$> load (m_RuntimeDataFunctionInfo f).
Definition GetMinShaderTarget (f : t) : option Z :=
  MinShaderTarget <$> load (m_RuntimeDataFunctionInfo f).

Definition GetNumResources (h : store) (f : t) : option Z :=
  info ← load (m_RuntimeDataFunctionInfo f);
  if decide (Resources info = UINT_MAX) then Some 0
  else
    it ← indices h f;
    row ← IndexTableReader.getRow it (Resources info);
    Some (IndexTableReader.Count row).

Definition GetResource (h : store) (f : t) (i : Z) : option ResourceReader.t :=
  it ← indices h f;
  info ← load (m_RuntimeDataFunctionInfo f);
  row ← IndexTableReader.getRow it (Resources info);
  resIndex ← IndexTableReader.At row i;
  rt ← resources h f;
  Some (ResourceTableReader.GetItem rt resIndex).

Definition GetNumDependencies (h : store) (f : t) : option Z :=
  info ← load (m_RuntimeDataFunctionInfo f);
  if decide (FunctionDependencies info = UINT_MAX) then Some 0
  else
    it ← indices h f;
    row ← IndexTableReader.getRow it (FunctionDependencies info);
    Some (IndexTableReader.Count row).

Definition GetDependency (h : store) (f : t) (i : Z) : option (ptr Byte.byte) :=
  it ← indices h f;
  info ← load (m_RuntimeDataFunctionInfo f);
  row ← IndexTableReader.getRow it (FunctionDependencies info);
  resIndex ← IndexTableReader.At row i;
  st ← strings h f;
  Some (StringTableReader.Get st resIndex).

Definition GetPayloadSizeInBytes (f : t) : option Z :=
  PayloadSizeInBytes <$> load (m_RuntimeDataFunctionInfo f).
Definition GetAttributeSizeInBytes (f : t) : option Z :=
  AttributeSizeInBytes <$> load (m_RuntimeDataFunctionInfo f).
Definition GetParameterSizeInBytes (f : t) : option Z :=
  PayloadSizeInBytes <$> load (m_RuntimeDataFunctionInfo f).
Definition GetShaderKind (f : t) : option Z :=
  ShaderKind <$> load (m_RuntimeDataFunctionInfo f).

End FunctionReader.

(** ** class FunctionTableReader *)

Module FunctionTableReader.
Include FunctionTableReaderFields.

Definition default : t := mk nullptr 0 0%N.

Definition GetItem (rd : t) (i : Z) : FunctionReader.t :=
  FunctionReader.mk (ptr_add (m_infos rd) i) (m_context rd).
Definition GetNumFunctions (rd : t) : Z := m_count rd.

Definition SetFunctionInfo (rd : t) (p : ptr RuntimeDataFunctionInfo) : t :=
  mk p (m_count rd) (m_context rd).
Definition SetCount (rd : t) (count : Z) : t :=
  mk (m_infos rd) count (m_context rd).
Definition SetContext (rd : t) (context : addr) : t :=
  mk (m_infos rd) (m_count rd) context.

End FunctionTableReader.

(** ** Vocabulary of the statements *)

(** How many elements of [l] satisfy [P]. *)
Definition count_if {A : Type} (P : A → Prop) `{∀ x, Decision (P x)}
    (l : list A) : Z :=
  Z.of_nat (length (filter P l)).

(** The classes the construction scan tallies. *)
Definition tallied `{RC : DXIL.ResourceClass} (cls : Z) : Prop :=
  cls ∈ [DXIL.CBuffer; DXIL.Sampler; DXIL.SRV; DXIL.UAV].

#[global] Instance tallied_dec `{RC : DXIL.ResourceClass} (cls : Z) :
  Decision (tallied cls).
Proof. unfold tallied. apply _. Defined.

(** No counter is negative and their sum fits 32 bits with [room] to
    spare. *)
Definition headroom (rd : ResourceTableReader.t) (room : Z) : Prop :=
  0 ≤ ResourceTableReader.m_CBufferCount rd ∧
  0 ≤ ResourceTableReader.m_SamplerCount rd ∧
  0 ≤ ResourceTableReader.m_SRVCount rd ∧
  0 ≤ ResourceTableReader.m_UAVCount rd ∧
  ResourceTableReader.m_CBufferCount rd + ResourceTableReader.m_SamplerCount rd
    + ResourceTableReader.m_SRVCount rd + ResourceTableReader.m_UAVCount rd
    + room < 2 ^ 32.

(** The four counters of a resource table reader. *)
Definition counters (rd : ResourceTableReader.t) : Z * Z * Z * Z :=
  (ResourceTableReader.GetNumCBuffers rd,
   ResourceTableReader.GetNumSamplers rd,
   ResourceTableReader.GetNumSRVs rd,
   ResourceTableReader.GetNumUAVs rd).

(** The reader [rd] with its array pointer and context replaced. *)
Definition retarget (info : ptr RuntimeDataResourceInfo) (ctx : addr)
    (rd : ResourceTableReader.t) : ResourceTableReader.t :=
  ResourceTableReader.mk info ctx
    (ResourceTableReader.m_CBufferCount rd)
    (ResourceTableReader.m_SamplerCount rd)
    (ResourceTableReader.m_SRVCount rd)
    (ResourceTableReader.m_UAVCount rd).

(** A resource table under [DXIL.sample_encoding]: two CBuffers, one
    Sampler, three SRVs and one UAV, told apart by their [ID]. *)
Definition sample_record (cls id : Z) : RuntimeDataResourceInfo :=
  mkResourceInfo cls 0 id 0 0 0 0 0.

Definition sample_cbuffers : list RuntimeDataResourceInfo :=
  [sample_record 2 0; sample_record 2 1].
Definition sample_samplers : list RuntimeDataResourceInfo :=
  [sample_record 3 0].
Definition sample_srvs : list RuntimeDataResourceInfo :=
  [sample_record 0 0; sample_record 0 1; sample_record 0 2].
Definition sample_uavs : list RuntimeDataResourceInfo :=
  [sample_record 1 0].
Definition sample_table : list RuntimeDataResourceInfo :=
  sample_cbuffers ++ sample_samplers ++ sample_srvs ++ sample_uavs.

(** A function record with every field zero but the two row references
    and the two halves of the feature flag. *)
Definition sample_function (resources dependencies lo hi : Z) :
    RuntimeDataFunctionInfo :=
  mkFunctionInfo 0 0 resources dependencies 0 0 0 lo hi 0 0.

(** A function view on a one-record table. *)
Definition sample_view (info : RuntimeDataFunctionInfo) (ctx : addr) :
    FunctionReader.t :=
  FunctionReader.mk (Ptr [info] 0) ctx.

(** A context at address 1: the string table "ab\0cd\0", the index
    table [3; 5; 1; 3], the sample resource table, no function table. *)
Definition sample_strings : StringTableReader.t :=
  StringTableReader.mk
    (Ptr [Byte.x61; Byte.x62; Byte.x00; Byte.x63; Byte.x64; Byte.x00] 0) 6.
Definition sample_indices : IndexTableReader.t :=
  IndexTableReader.mk (Ptr [3; 5; 1; 3] 0) 4.
Definition sample_resources : ResourceTableReader.t :=
  ResourceTableReader.mk (Ptr sample_table 0) 1%N 2 1 3 1.
Definition sample_context : RuntimeDataContext :=
  mkContext (Some sample_strings) (Some sample_indices)
            (Some sample_resources) None.
Definition sample_store : store := {[ 1%N := sample_context ]}.

(** The view [v] is a handle on element [k] of the record array [l]. *)
Definition views (v : ResourceReader.t) (l : list RuntimeDataResourceInfo)
    (k : Z) : Prop :=
  ∃ r, l !! Z.to_nat k = Some r ∧ load (ResourceReader.m_ResourceInfo v) = Some r.

(** A table that is not grouped by class: a UAV, a CBuffer, an SRV and a
    second CBuffer under [DXIL.sample_encoding]. *)
Definition sample_ungrouped : list RuntimeDataResourceInfo :=
  [sample_record 1 7; sample_record 2 0; sample_record 0 0; sample_record 2 1].



(** A function table for the sample context: a function without
    resources or dependencies, named "ab", and a function named "cd"
    ("ab" unmangled) whose resources are the row at offset 0 and whose
    dependencies are the row at offset 2 of the sample index table. *)
Definition sample_functions : list RuntimeDataFunctionInfo :=
  [mkFunctionInfo 0 0 UINT_MAX UINT_MAX 7 0 0 1 0 0 0;
   mkFunctionInfo 3 0 0 2 8 16 8 5 6 0 0].
Definition sample_function_table : FunctionTableReader.t :=
  FunctionTableReader.mk (Ptr sample_functions 0) 2 1%N.

(** * Properties *)

(** ** Pointers and arrays *)

Lemma ptr_add_0 {A : Type} (p : ptr A) : ptr_add p 0 = p.
Proof. destruct p as [b k]. unfold ptr_add; simpl. f_equal. lia. Qed.

Lemma ptr_add_add {A : Type} (p : ptr A) (a b : Z) :
  ptr_add (ptr_add p a) b = ptr_add p (a + b).
Proof. unfold ptr_add; simpl. f_equal. lia. Qed.

Lemma load_nullptr {A : Type} (i : Z) : load (ptr_add (@nullptr A) i) = None.
Proof. unfold load, ptr_add, nullptr; simpl. by case_decide. Qed.

(** Reading the [k]-th element of an array through its base pointer. *)
Lemma array_at_load {A : Type} (p : ptr A) (l : list A) (k : Z) (x : A) :
  array_at p l → 0 ≤ k → l !! Z.to_nat k = Some x →
  load (ptr_add p k) = Some x.
Proof.
  intros Hp Hk Hx. specialize (Hp (Z.to_nat k) x Hx).
  by rewrite Z2Nat.id in Hp.
Qed.

(** An array that starts a buffer of its own. *)
Lemma array_at_whole {A : Type} (l : list A) : array_at (Ptr l 0) l.
Proof.
  intros i x Hx. unfold load, ptr_add; simpl.
  case_decide; [|lia]. by replace (Z.to_nat (0 + Z.of_nat i)) with i by lia.
Qed.

(** An array that is a sub-range of a larger buffer. *)
Lemma array_at_slice {A : Type} (pre l post : list A) :
  array_at (Ptr (pre ++ l ++ post) (Z.of_nat (length pre))) l.
Proof.
  intros i x Hx. unfold load, ptr_add; simpl.
  case_decide; [|lia].
  replace (Z.to_nat (Z.of_nat (length pre) + Z.of_nat i))
    with (length pre + i)%nat by lia.
  rewrite lookup_app_r by lia.
  replace (length pre + i - length pre)%nat with i by lia.
  by apply lookup_app_l_Some.
Qed.

(** A tail of an array is an array. *)
Lemma array_at_drop {A : Type} (p : ptr A) (l : list A) (k : nat) :
  array_at p l → array_at (ptr_add p (Z.of_nat k)) (drop k l).
Proof.
  intros Hp i x Hx. rewrite lookup_drop in Hx.
  rewrite ptr_add_add, <- Nat2Z.inj_add. by apply Hp.
Qed.

(** A non-empty array fixes the buffer from its base pointer on. *)
Lemma array_at_buffer {A : Type} (p : ptr A) (l : list A) :
  array_at p l → l ≠ [] →
  0 ≤ index p ∧ ∃ rest, drop (Z.to_nat (index p)) (buffer p) = l ++ rest.
Proof.
  intros Hp Hne.
  assert (H0 : 0 ≤ index p).
  { destruct l as [|x l]; [done|].
    specialize (Hp 0%nat x eq_refl). unfold load, ptr_add in Hp; simpl in Hp.
    case_decide; [lia|done]. }
  split; [done|].
  exists (drop (length l) (drop (Z.to_nat (index p)) (buffer p))).
  rewrite <- (take_drop (length l) (drop (Z.to_nat (index p)) (buffer p))) at 1.
  f_equal. apply list_eq. intros i.
  destruct (l !! i) as [x|] eqn:Hx.
  - pose proof (lookup_lt_Some _ _ _ Hx) as Hlt.
    rewrite lookup_take_lt by done. rewrite lookup_drop.
    specialize (Hp i x Hx). unfold load, ptr_add in Hp; simpl in Hp.
    case_decide; [|lia].
    by replace (Z.to_nat (index p + Z.of_nat i))
      with (Z.to_nat (index p) + i)%nat in Hp by lia.
  - apply lookup_ge_None in Hx. apply lookup_ge_None.
    rewrite length_take. lia.
Qed.

(** ** NUL-terminated strings *)

Lemma until_nul_app (s rest : list Byte.byte) :
  Byte.x00 ∉ s → until_nul (s ++ Byte.x00 :: rest) = Some s.
Proof.
  induction s as [|b s IH]; intros Hs; simpl.
  - by destruct (Byte.byte_eq_dec Byte.x00 Byte.x00).
  - apply not_elem_of_cons in Hs as [Hb Hs].
    destruct (Byte.byte_eq_dec b Byte.x00); [congruence|].
    by rewrite IH.
Qed.

Lemma until_nul_Some (bs s : list Byte.byte) :
  until_nul bs = Some s →
  (Byte.x00 ∉ s) ∧ (∃ rest, bs = s ++ Byte.x00 :: rest).
Proof.
  revert s. induction bs as [|b bs IH]; intros s; simpl; [done|].
  destruct (Byte.byte_eq_dec b Byte.x00) as [->|Hb].
  - intros [= <-]. split; [apply not_elem_of_nil|by exists bs].
  - destruct (until_nul bs) as [s'|]; simpl; [|done].
    intros [= <-]. destruct (IH s' eq_refl) as (Hs' & rest & ->).
    split; [by apply not_elem_of_cons|by exists rest].
Qed.

(** ** IndexTableReader *)

(** The overlapping rows of the index table [3; 5; 1; 9]: the row at
    offset 0 is {3, [5; 1; 9]}, the row at offset 2 is {1, [9]} and shares
    the storage of the first row's tail. *)
Example getRow_overlapping_rows :
  let rd := IndexTableReader.mk (Ptr [3; 5; 1; 9] 0) 4 in
  (IndexTableReader.Count <$> IndexTableReader.getRow rd 0) = Some 3 ∧
  (IndexTableReader.getRow rd 0 ≫= λ row,
     mapM (IndexTableReader.At row) [0; 1; 2]) = Some [5; 1; 9] ∧
  (IndexTableReader.Count <$> IndexTableReader.getRow rd 2) = Some 1 ∧
  (IndexTableReader.getRow rd 2 ≫= λ row,
     mapM (IndexTableReader.At row) [0]) = Some [9].
Proof. repeat split; reflexivity. Qed.

(** What [getRow] and [At] read out of a table that holds [t]. *)
Lemma getRow_At (rd : IndexTableReader.t) (t : list Z) (r c : Z) :
  array_at (IndexTableReader.m_table rd) t →
  0 ≤ r →
  t !! Z.to_nat r = Some c →
  r + 1 + c ≤ Z.of_nat (length t) →
  ∃ row,
    IndexTableReader.getRow rd r = Some row ∧
    IndexTableReader.Count row = c ∧
    ∀ i, 0 ≤ i < c →
      ∃ x, t !! Z.to_nat (r + 1 + i) = Some x ∧
           IndexTableReader.At row i = Some x.
Proof.
  intros Ht Hr Hc Hlen.
  unfold IndexTableReader.getRow.
  rewrite (array_at_load _ _ _ _ Ht Hr Hc). simpl.
  eexists. split; [reflexivity|]. split; [reflexivity|].
  intros i Hi.
  destruct (lookup_lt_is_Some_2 t (Z.to_nat (r + 1 + i))) as [x Hx]; [lia|].
  exists x. split; [done|].
  unfold IndexTableReader.At; simpl. rewrite !ptr_add_add.
  replace (r + 1 + i) with (r + (1 + i)) in * by lia.
  apply (array_at_load _ _ _ _ Ht); [lia|done].
Qed.

(** C1. For an index table [t] and a row reference [r] whose row lies
    within the table ([r + 1 + t[r]] does not exceed the length of [t]),
    [getRow r] returns a row whose [Count()] is [t[r]] and whose [At(i)] is
    [t[r + 1 + i]] for every [i < t[r]].  Nothing but the offset [r]
    enters, so rows that overlap decode independently. *)
Theorem getRow_decodes_row (rd : IndexTableReader.t) (t : list Z) (r c : Z) :
  array_at (IndexTableReader.m_table rd) t →
  0 ≤ r →
  t !! Z.to_nat r = Some c →
  r + 1 + c ≤ Z.of_nat (length t) →
  ∃ row,
    IndexTableReader.getRow rd r = Some row ∧
    IndexTableReader.Count row = c ∧
    ∀ i, 0 ≤ i < c →
      ∃ x, t !! Z.to_nat (r + 1 + i) = Some x ∧
           IndexTableReader.At row i = Some x.
Proof. exact (getRow_At rd t r c). Qed.

(** The second, overlapping row of [3; 5; 1; 9], read at its own offset
    out of a table that is a sub-range of a larger buffer. *)
Lemma getRow_decodes_row_witness :
  ∃ row,
    IndexTableReader.getRow
      (IndexTableReader.mk (Ptr ([7; 7] ++ [3; 5; 1; 9] ++ [8]) 2) 4) 2
      = Some row ∧
    IndexTableReader.Count row = 1 ∧
    ∀ i, 0 ≤ i < 1 →
      ∃ x, [3; 5; 1; 9] !! Z.to_nat (2 + 1 + i) = Some x ∧
           IndexTableReader.At row i = Some x.
Proof.
  apply (getRow_decodes_row
           (IndexTableReader.mk (Ptr ([7; 7] ++ [3; 5; 1; 9] ++ [8]) 2) 4)
           [3; 5; 1; 9] 2 1).
  - exact (array_at_slice [7; 7] [3; 5; 1; 9] [8]).
  - lia.
  - reflexivity.
  - simpl. lia.
Defined.

(** ** StringTableReader *)

(** C7. On a string table whose last byte is NUL, [Get(offset)] with
    [offset] below the table size denotes the string that begins at that
    byte offset and runs to the next NUL; [Get(0)] denotes the first stored
    string, up to its terminator. *)
Theorem Get_string_at_offset (rd : StringTableReader.t)
    (bytes : list Byte.byte) (offset : Z) :
  array_at (StringTableReader.m_table rd) bytes →
  StringTableReader.m_size rd = Z.of_nat (length bytes) →
  last bytes = Some Byte.x00 →
  0 ≤ offset < StringTableReader.m_size rd →
  (∃ s rest,
     c_str (StringTableReader.Get rd offset) = Some s ∧
     (Byte.x00 ∉ s) ∧
     drop (Z.to_nat offset) bytes = s ++ Byte.x00 :: rest) ∧
  (∀ s rest,
     Byte.x00 ∉ s → bytes = s ++ Byte.x00 :: rest →
     c_str (StringTableReader.Get rd 0) = Some s).
Proof.
  intros Hp Hsz Hlast Hoff.
  assert (Hstr : ∀ k : nat, (k < length bytes)%nat → ∀ s rest,
            Byte.x00 ∉ s → drop k bytes = s ++ Byte.x00 :: rest →
            c_str (StringTableReader.Get rd (Z.of_nat k)) = Some s).
  { intros k Hk s rest Hs Hd.
    pose proof (array_at_drop _ _ k Hp) as Hpk.
    destruct (array_at_buffer _ _ Hpk) as (Hidx & more & Hbuf).
    { intros E. apply (f_equal length) in E. rewrite length_drop in E.
      simpl in E. lia. }
    unfold c_str, StringTableReader.Get. case_decide; [|done].
    rewrite Hbuf, Hd, <- app_assoc. simpl. by apply until_nul_app. }
  split.
  - assert (Hin : Byte.x00 ∈ drop (Z.to_nat offset) bytes).
    { apply list_elem_of_lookup. exists (length bytes - 1 - Z.to_nat offset)%nat.
      rewrite lookup_drop.
      replace (Z.to_nat offset + (length bytes - 1 - Z.to_nat offset))%nat
        with (length bytes - 1)%nat by lia.
      rewrite last_lookup in Hlast.
      by replace (length bytes - 1)%nat with (Nat.pred (length bytes)) by lia. }
    apply list_elem_of_split_l in Hin as (s & rest & Hd & Hs).
    exists s, rest. split; [|done].
    rewrite <- (Z2Nat.id offset) by lia.
    apply (Hstr (Z.to_nat offset)) with rest; [lia|done..].
  - intros s rest Hs Hb.
    apply (Hstr 0%nat) with rest; [lia|done|]. by rewrite drop_0.
Qed.

(** The table "ab\0cd\0", as a sub-range of a larger buffer, read at
    offset 3 and at offset 0. *)
Lemma Get_string_at_offset_witness :
  let bytes := [Byte.x61; Byte.x62; Byte.x00; Byte.x63; Byte.x64; Byte.x00] in
  let rd := StringTableReader.mk (Ptr ([Byte.xff] ++ bytes ++ [Byte.xee]) 1) 6 in
  (∃ s rest,
     c_str (StringTableReader.Get rd 3) = Some s ∧
     (Byte.x00 ∉ s) ∧
     drop (Z.to_nat 3) bytes = s ++ Byte.x00 :: rest) ∧
  (∀ s rest,
     Byte.x00 ∉ s → bytes = s ++ Byte.x00 :: rest →
     c_str (StringTableReader.Get rd 0) = Some s).
Proof.
  apply (Get_string_at_offset
           (StringTableReader.mk
              (Ptr ([Byte.xff]
                    ++ [Byte.x61; Byte.x62; Byte.x00; Byte.x63; Byte.x64; Byte.x00]
                    ++ [Byte.xee]) 1) 6)
           [Byte.x61; Byte.x62; Byte.x00; Byte.x63; Byte.x64; Byte.x00] 3).
  - exact (array_at_slice [Byte.xff]
             [Byte.x61; Byte.x62; Byte.x00; Byte.x63; Byte.x64; Byte.x00]
             [Byte.xee]).
  - reflexivity.
  - reflexivity.
  - simpl. lia.
Defined.

Example Get_reads_cd :
  c_str (StringTableReader.Get
           (StringTableReader.mk
              (Ptr [Byte.x61; Byte.x62; Byte.x00; Byte.x63; Byte.x64; Byte.x00] 0) 6)
           3)
  = Some [Byte.x63; Byte.x64].
Proof. reflexivity. Qed.

(** ** ResourceTableReader: the construction scan *)

Lemma add32_small (a b : Z) : 0 ≤ a + b < 2 ^ 32 → add32 a b = a + b.
Proof. intros H. unfold add32, wrap32. by apply Z.mod_small. Qed.

(** Replace the 32-bit additions that provably do not wrap, innermost
    first. *)
Ltac no_wrap :=
  repeat match goal with
         | |- context [add32 ?a ?b] => rewrite (add32_small a b) by lia
         end.

Section ConstructionScan.
Context {RC : DXIL.ResourceClass}.

Import ResourceTableReader.

Lemma count_if_nil {A : Type} (P : A → Prop) `{∀ x, Decision (P x)} :
  count_if P [] = 0.
Proof. reflexivity. Qed.

Lemma count_if_cons {A : Type} (P : A → Prop) `{∀ x, Decision (P x)}
    (x : A) (l : list A) :
  count_if P (x :: l) = (if decide (P x) then 1 else 0) + count_if P l.
Proof.
  unfold count_if. rewrite filter_cons. case_decide; simpl length; lia.
Qed.

Lemma count_if_app {A : Type} (P : A → Prop) `{∀ x, Decision (P x)}
    (l k : list A) :
  count_if P (l ++ k) = count_if P l + count_if P k.
Proof. unfold count_if. rewrite filter_app, length_app. lia. Qed.

Lemma count_if_bounds {A : Type} (P : A → Prop) `{∀ x, Decision (P x)}
    (l : list A) :
  0 ≤ count_if P l ≤ Z.of_nat (length l).
Proof. unfold count_if. pose proof (length_filter P l). lia. Qed.

Lemma count_if_all {A : Type} (P : A → Prop) `{∀ x, Decision (P x)}
    (l : list A) :
  Forall P l → count_if P l = Z.of_nat (length l).
Proof.
  induction 1 as [|x l Hx _ IH]; [done|].
  rewrite count_if_cons, IH. case_decide; [|done]. simpl length. lia.
Qed.

Lemma count_if_none {A : Type} (P : A → Prop) `{∀ x, Decision (P x)}
    (l : list A) :
  Forall (λ x, ¬ P x) l → count_if P l = 0.
Proof.
  induction 1 as [|x l Hx _ IH]; [done|].
  rewrite count_if_cons, IH. by case_decide.
Qed.

(** The scan is the left fold of [tally] over the classes of the
    records, and [count] iterations of fuel suffice. *)
Lemma scan_foldl (p : ptr RuntimeDataResourceInfo)
    (recs : list RuntimeDataResourceInfo) :
  array_at p recs → Z.of_nat (length recs) < 2 ^ 32 →
  ∀ (fuel i : nat) (rd : t),
    (i ≤ length recs)%nat → (length recs - i ≤ fuel)%nat →
    scan fuel p (Z.of_nat (length recs)) (Z.of_nat i) rd
    = Some (foldl tally rd (Class <$> drop i recs)).
Proof.
  intros Hp Hlen fuel.
  induction fuel as [|fuel IH]; intros i rd Hi Hfuel.
  - assert (i = length recs) as -> by lia.
    rewrite drop_all. simpl. case_decide; [lia|done].
  - simpl. case_decide as Hlt.
    + destruct (lookup_lt_is_Some_2 recs i) as [x Hx]; [lia|].
      rewrite (Hp i x Hx). simpl.
      rewrite add32_small by lia.
      replace (Z.of_nat i + 1) with (Z.of_nat (S i)) by lia.
      rewrite IH by lia.
      by rewrite (drop_S _ _ _ Hx).
    + assert (i = length recs) as -> by lia.
      by rewrite drop_all.
Qed.

Lemma tallied_iff (cls : Z) :
  tallied cls ↔
  cls = DXIL.CBuffer ∨ cls = DXIL.Sampler ∨ cls = DXIL.SRV ∨ cls = DXIL.UAV.
Proof.
  unfold tallied. rewrite !elem_of_cons, elem_of_nil. tauto.
Qed.

Lemma well_formed_distinct :
  DXIL.well_formed RC →
  DXIL.CBuffer ≠ DXIL.Sampler ∧ DXIL.CBuffer ≠ DXIL.SRV ∧
  DXIL.CBuffer ≠ DXIL.UAV ∧ DXIL.Sampler ≠ DXIL.SRV ∧
  DXIL.Sampler ≠ DXIL.UAV ∧ DXIL.SRV ≠ DXIL.UAV.
Proof.
  intros [Hnd _].
  apply NoDup_cons in Hnd as [H1 Hnd]. apply NoDup_cons in Hnd as [H2 Hnd].
  apply NoDup_cons in Hnd as [H3 _].
  rewrite !elem_of_cons, elem_of_nil in H1.
  rewrite !elem_of_cons, elem_of_nil in H2.
  rewrite !elem_of_cons, elem_of_nil in H3.
  tauto.
Qed.

(** One tally step adds one to the total exactly when the class is one of
    the four, whatever their encoding: the branches exclude each other. *)
Lemma tally_headroom (rd : t) (cls : Z) (room : Z) :
  headroom rd (room + 1) → 0 ≤ room →
  headroom (tally rd cls) room ∧
  GetNumResources (tally rd cls)
  = GetNumResources rd + (if decide (tallied cls) then 1 else 0).
Proof.
  unfold headroom, GetNumResources.
  intros (Ha & Hb & Hc & Hd & Hsum) Hroom.
  destruct (decide (tallied cls)) as [Ht|Ht]; rewrite tallied_iff in Ht;
    unfold tally; repeat case_decide; try tauto; simpl; no_wrap; lia.
Qed.

Lemma foldl_tally_total (l : list Z) :
  ∀ rd : t, headroom rd (Z.of_nat (length l)) →
  GetNumResources (foldl tally rd l) = GetNumResources rd + count_if tallied l.
Proof.
  induction l as [|cls l IH]; intros rd Hrd; simpl foldl.
  - rewrite count_if_nil. lia.
  - destruct (tally_headroom rd cls (Z.of_nat (length l))) as [Hh Hn].
    { by replace (Z.of_nat (length l) + 1)
        with (Z.of_nat (length (cls :: l))) by (simpl length; lia). }
    { lia. }
    rewrite (IH _ Hh), Hn, count_if_cons. lia.
Qed.

(** With distinct enumerators every counter moves by the number of
    records of its own class. *)
Lemma foldl_tally_counters (Hrc : DXIL.well_formed RC) (l : list Z) :
  ∀ rd : t, headroom rd (Z.of_nat (length l)) →
  foldl tally rd l
  = mk (m_ResourceInfo rd) (m_Context rd)
       (m_CBufferCount rd + count_if (λ c, c = DXIL.CBuffer) l)
       (m_SamplerCount rd + count_if (λ c, c = DXIL.Sampler) l)
       (m_SRVCount rd + count_if (λ c, c = DXIL.SRV) l)
       (m_UAVCount rd + count_if (λ c, c = DXIL.UAV) l).
Proof.
  destruct (well_formed_distinct Hrc) as (H1 & H2 & H3 & H4 & H5 & H6).
  induction l as [|cls l IH]; intros rd Hrd; simpl foldl.
  - rewrite !count_if_nil. destruct rd; simpl. f_equal; lia.
  - destruct (tally_headroom rd cls (Z.of_nat (length l))) as [Hh _].
    { by replace (Z.of_nat (length l) + 1)
        with (Z.of_nat (length (cls :: l))) by (simpl length; lia). }
    { lia. }
    rewrite (IH _ Hh), !count_if_cons.
    destruct Hrd as (Ha & Hb & Hc & Hd & Hsum). simpl length in Hsum.
    unfold tally; repeat case_decide; subst; try congruence; simpl;
      no_wrap; f_equal; lia.
Qed.

Lemma count_if_fmap {A B : Type} (f : A → B) (P : B → Prop)
    `{∀ y, Decision (P y)} (l : list A) :
  count_if P (f <$> l) = count_if (λ x, P (f x)) l.
Proof.
  induction l as [|x l IH]; [done|].
  rewrite fmap_cons, !count_if_cons, IH. by repeat case_decide.
Qed.

Lemma count_if_class (l : list RuntimeDataResourceInfo) (k k' : Z) :
  Forall (λ r, Class r = k) l →
  count_if (λ c, c = k') (Class <$> l)
  = if decide (k = k') then Z.of_nat (length l) else 0.
Proof.
  induction 1 as [|r l Hr _ IH]; [by case_decide|].
  rewrite fmap_cons, count_if_cons, IH, Hr.
  repeat case_decide; try done; simpl length; lia.
Qed.

(** The total after a scan of an array of [n < 2^32] records. *)
Lemma SetResourceInfo_total (rd : t) (p : ptr RuntimeDataResourceInfo)
    (recs : list RuntimeDataResourceInfo) :
  array_at p recs → Z.of_nat (length recs) < 2 ^ 32 →
  ∃ rd', SetResourceInfo rd p (Z.of_nat (length recs)) = Some rd' ∧
         GetNumResources rd' = count_if (λ r, tallied (Class r)) recs.
Proof.
  intros Hp Hlen. unfold SetResourceInfo.
  rewrite Nat2Z.id.
  rewrite (scan_foldl p recs Hp Hlen (length recs) 0%nat) by lia.
  rewrite drop_0. eexists. split; [reflexivity|].
  rewrite foldl_tally_total.
  - unfold GetNumResources; simpl. no_wrap.
    by rewrite count_if_fmap.
  - unfold headroom; simpl. rewrite length_fmap. lia.
Qed.

(** The reader left by a scan of an array grouped by class. *)
Lemma SetResourceInfo_grouped (Hrc : DXIL.well_formed RC) (rd : t)
    (p : ptr RuntimeDataResourceInfo)
    (cbs smps srvs uavs : list RuntimeDataResourceInfo) :
  Forall (λ r, Class r = DXIL.CBuffer) cbs →
  Forall (λ r, Class r = DXIL.Sampler) smps →
  Forall (λ r, Class r = DXIL.SRV) srvs →
  Forall (λ r, Class r = DXIL.UAV) uavs →
  array_at p (cbs ++ smps ++ srvs ++ uavs) →
  Z.of_nat (length (cbs ++ smps ++ srvs ++ uavs)) < 2 ^ 32 →
  SetResourceInfo rd p (Z.of_nat (length (cbs ++ smps ++ srvs ++ uavs)))
  = Some (mk p (m_Context rd)
             (Z.of_nat (length cbs)) (Z.of_nat (length smps))
             (Z.of_nat (length srvs)) (Z.of_nat (length uavs))).
Proof.
  intros Hcb Hsm Hsr Hua Hp Hlen. unfold SetResourceInfo.
  rewrite Nat2Z.id.
  rewrite (scan_foldl p _ Hp Hlen _ 0%nat) by lia.
  rewrite drop_0, (foldl_tally_counters Hrc).
  2:{ unfold headroom; simpl. rewrite length_fmap. lia. }
  simpl. rewrite !fmap_app, !count_if_app.
  rewrite !(count_if_class cbs _ _ Hcb), !(count_if_class smps _ _ Hsm),
    !(count_if_class srvs _ _ Hsr), !(count_if_class uavs _ _ Hua).
  destruct (well_formed_distinct Hrc) as (H1 & H2 & H3 & H4 & H5 & H6).
  repeat match goal with
         | |- context [decide (?a = ?b)] =>
             first [ rewrite (decide_True (P := a = b)) by done
                   | rewrite (decide_False (P := a = b)) by congruence ]
         end.
  do 2 f_equal; lia.
Qed.

(** A handle at offset [length pre + i] of an array [pre ++ grp ++ post]
    views the [i]-th record of the group [grp]. *)
Lemma views_group (p : ptr RuntimeDataResourceInfo) (ctx : addr)
    (pre grp post : list RuntimeDataResourceInfo) (cls i : Z) :
  array_at p (pre ++ grp ++ post) →
  Forall (λ r, Class r = cls) grp →
  0 ≤ i < Z.of_nat (length grp) →
  views (ResourceReader.mk (ptr_add p (Z.of_nat (length pre) + i)) ctx)
        (pre ++ grp ++ post) (Z.of_nat (length pre) + i) ∧
  ResourceReader.GetResourceClass
    (ResourceReader.mk (ptr_add p (Z.of_nat (length pre) + i)) ctx) = Some cls.
Proof.
  intros Hp Hcls Hi.
  destruct (lookup_lt_is_Some_2 grp (Z.to_nat i)) as [r Hr]; [lia|].
  assert (Hl : (pre ++ grp ++ post) !! Z.to_nat (Z.of_nat (length pre) + i)
               = Some r).
  { replace (Z.to_nat (Z.of_nat (length pre) + i))
      with (length pre + Z.to_nat i)%nat by lia.
    rewrite lookup_app_r by lia.
    replace (length pre + Z.to_nat i - length pre)%nat with (Z.to_nat i) by lia.
    by apply lookup_app_l_Some. }
  assert (Hld : load (ptr_add p (Z.of_nat (length pre) + i)) = Some r).
  { apply (array_at_load _ _ _ _ Hp); [lia|done]. }
  split.
  - exists r. by split.
  - unfold ResourceReader.GetResourceClass; simpl. rewrite Hld. simpl.
    f_equal. by apply (Forall_lookup_1 _ _ _ _ Hcls Hr).
Qed.

Lemma tally_retarget (info : ptr RuntimeDataResourceInfo) (ctx : addr)
    (rd : t) (cls : Z) :
  tally (retarget info ctx rd) cls = retarget info ctx (tally rd cls).
Proof. unfold tally, retarget. by repeat case_decide. Qed.

(** The pointer and the context a reader starts from do not steer the
    scan: they are carried along unchanged. *)
Lemma scan_retarget (info : ptr RuntimeDataResourceInfo) (ctx : addr)
    (p : ptr RuntimeDataResourceInfo) (count : Z) (fuel : nat) :
  ∀ (i : Z) (rd : t),
    scan fuel p count i (retarget info ctx rd)
    = retarget info ctx <$> scan fuel p count i rd.
Proof.
  induction fuel as [|fuel IH]; intros i rd; simpl.
  - by case_decide.
  - case_decide; [|done].
    destruct (load (ptr_add p i)) as [cur|]; simpl; [|done].
    by rewrite tally_retarget, IH.
Qed.

Lemma SetResourceInfo_retarget (rd1 rd2 : t)
    (p : ptr RuntimeDataResourceInfo) (count : Z) :
  SetResourceInfo rd1 p count
  = retarget p (m_Context rd1) <$> SetResourceInfo rd2 p count.
Proof.
  unfold SetResourceInfo. by rewrite <- scan_retarget.
Qed.

(** C2. After the construction scan of an array grouped by class in the
    order CBuffer, Sampler, SRV, UAV, the four counters are the group
    sizes, and [GetCBuffer(i)], [GetSampler(i)], [GetSRV(i)], [GetUAV(i)]
    return the record at index [i], [cCount + i], [cCount + sCount + i],
    [cCount + sCount + srvCount + i] for [i] below the count of the class:
    each is [GetItem] at that index and views a record of its class. *)
Theorem class_accessors_index_their_group (Hrc : DXIL.well_formed RC)
    (rd : t) (p : ptr RuntimeDataResourceInfo)
    (cbs smps srvs uavs : list RuntimeDataResourceInfo) :
  Forall (λ r, Class r = DXIL.CBuffer) cbs →
  Forall (λ r, Class r = DXIL.Sampler) smps →
  Forall (λ r, Class r = DXIL.SRV) srvs →
  Forall (λ r, Class r = DXIL.UAV) uavs →
  array_at p (cbs ++ smps ++ srvs ++ uavs) →
  Z.of_nat (length (cbs ++ smps ++ srvs ++ uavs)) < 2 ^ 32 →
  ∃ rd',
    SetResourceInfo rd p (Z.of_nat (length (cbs ++ smps ++ srvs ++ uavs)))
      = Some rd' ∧
    counters rd' = (Z.of_nat (length cbs), Z.of_nat (length smps),
                    Z.of_nat (length srvs), Z.of_nat (length uavs)) ∧
    (∀ i, 0 ≤ i < GetNumCBuffers rd' →
       GetCBuffer rd' i = GetItem rd' i ∧
       views (GetCBuffer rd' i) (cbs ++ smps ++ srvs ++ uavs) i ∧
       ResourceReader.GetResourceClass (GetCBuffer rd' i) = Some DXIL.CBuffer) ∧
    (∀ i, 0 ≤ i < GetNumSamplers rd' →
       GetSampler rd' i = GetItem rd' (GetNumCBuffers rd' + i) ∧
       views (GetSampler rd' i) (cbs ++ smps ++ srvs ++ uavs)
             (GetNumCBuffers rd' + i) ∧
       ResourceReader.GetResourceClass (GetSampler rd' i) = Some DXIL.Sampler) ∧
    (∀ i, 0 ≤ i < GetNumSRVs rd' →
       GetSRV rd' i = GetItem rd' (GetNumCBuffers rd' + GetNumSamplers rd' + i) ∧
       views (GetSRV rd' i) (cbs ++ smps ++ srvs ++ uavs)
             (GetNumCBuffers rd' + GetNumSamplers rd' + i) ∧
       ResourceReader.GetResourceClass (GetSRV rd' i) = Some DXIL.SRV) ∧
    (∀ i, 0 ≤ i < GetNumUAVs rd' →
       GetUAV rd' i
       = GetItem rd' (GetNumCBuffers rd' + GetNumSamplers rd' + GetNumSRVs rd' + i) ∧
       views (GetUAV rd' i) (cbs ++ smps ++ srvs ++ uavs)
             (GetNumCBuffers rd' + GetNumSamplers rd' + GetNumSRVs rd' + i) ∧
       ResourceReader.GetResourceClass (GetUAV rd' i) = Some DXIL.UAV).
Proof.
  intros Hcb Hsm Hsr Hua Hp Hlen.
  eexists. split; [by apply SetResourceInfo_grouped|].
  split; [reflexivity|].
  rewrite !length_app in Hlen.
  unfold GetNumCBuffers, GetNumSamplers, GetNumSRVs, GetNumUAVs,
    GetCBuffer, GetSampler, GetSRV, GetUAV, GetItem; simpl.
  repeat split; try (no_wrap; reflexivity).
  - destruct (views_group p (m_Context rd) [] cbs (smps ++ srvs ++ uavs)
                DXIL.CBuffer i) as [Hv _]; done.
  - destruct (views_group p (m_Context rd) [] cbs (smps ++ srvs ++ uavs)
                DXIL.CBuffer i) as [_ Hc]; done.
  - no_wrap.
    destruct (views_group p (m_Context rd) cbs smps (srvs ++ uavs)
                DXIL.Sampler i) as [Hv _]; done.
  - no_wrap.
    destruct (views_group p (m_Context rd) cbs smps (srvs ++ uavs)
                DXIL.Sampler i) as [_ Hc]; done.
  - no_wrap.
    destruct (views_group p (m_Context rd) (cbs ++ smps) srvs uavs
                DXIL.SRV i) as [Hv _]; [by rewrite <- app_assoc|done..|].
    by rewrite <- app_assoc, length_app, Nat2Z.inj_add in Hv.
  - no_wrap.
    destruct (views_group p (m_Context rd) (cbs ++ smps) srvs uavs
                DXIL.SRV i) as [_ Hc]; [by rewrite <- app_assoc|done..|].
    by rewrite length_app, Nat2Z.inj_add in Hc.
  - no_wrap.
    destruct (views_group p (m_Context rd) (cbs ++ smps ++ srvs) uavs []
                DXIL.UAV i) as [Hv _];
      [by rewrite app_nil_r, <- !app_assoc|done..|].
    by rewrite app_nil_r, <- !app_assoc, !length_app, !Nat2Z.inj_add,
      !Z.add_assoc in Hv.
  - no_wrap.
    destruct (views_group p (m_Context rd) (cbs ++ smps ++ srvs) uavs []
                DXIL.UAV i) as [_ Hc];
      [by rewrite app_nil_r, <- !app_assoc|done..|].
    by rewrite !length_app, !Nat2Z.inj_add, !Z.add_assoc in Hc.
Qed.

(** C3, as the code has it.  After the construction scan of an array of
    [n] records, [GetNumResources()] is the number of records whose
    [Class] is one of CBuffer, Sampler, SRV, UAV; it is [n] when every
    record has one of these four classes. *)
Theorem GetNumResources_counts_tallied_classes (rd : t)
    (p : ptr RuntimeDataResourceInfo) (recs : list RuntimeDataResourceInfo) :
  array_at p recs →
  Z.of_nat (length recs) < 2 ^ 32 →
  ∃ rd',
    SetResourceInfo rd p (Z.of_nat (length recs)) = Some rd' ∧
    GetNumResources rd' = count_if (λ r, tallied (Class r)) recs ∧
    (Forall (λ r, tallied (Class r)) recs →
     GetNumResources rd' = Z.of_nat (length recs)).
Proof.
  intros Hp Hlen.
  destruct (SetResourceInfo_total rd p recs Hp Hlen) as (rd' & Hset & Hn).
  exists rd'. split; [done|]. split; [done|].
  intros Hall. by rewrite Hn, count_if_all.
Qed.

(** C9. The construction scan starts from counters reset to zero: on an
    array of [n] records it succeeds from any prior state of the reader,
    the counters and their sum it leaves do not depend on that prior
    state, and running it again with the same arguments changes
    nothing. *)
Theorem SetResourceInfo_forgets_prior_state (rd1 rd2 : t)
    (p : ptr RuntimeDataResourceInfo) (recs : list RuntimeDataResourceInfo) :
  array_at p recs →
  Z.of_nat (length recs) < 2 ^ 32 →
  ∃ r1 r2,
    SetResourceInfo rd1 p (Z.of_nat (length recs)) = Some r1 ∧
    SetResourceInfo rd2 p (Z.of_nat (length recs)) = Some r2 ∧
    counters r1 = counters r2 ∧
    GetNumResources r1 = GetNumResources r2 ∧
    SetResourceInfo r1 p (Z.of_nat (length recs)) = Some r1.
Proof.
  intros Hp Hlen.
  destruct (SetResourceInfo_total rd2 p recs Hp Hlen) as (r2 & Hset2 & _).
  exists (retarget p (m_Context rd1) r2), r2.
  assert (Hset1 : SetResourceInfo rd1 p (Z.of_nat (length recs))
                  = Some (retarget p (m_Context rd1) r2)).
  { by rewrite (SetResourceInfo_retarget rd1 rd2), Hset2. }
  split; [done|]. split; [done|]. split; [done|]. split; [done|].
  rewrite (SetResourceInfo_retarget _ rd1), Hset1. simpl.
  by destruct r2.
Qed.

End ConstructionScan.

(** *** The scan on concrete tables *)

Lemma sample_encoding_well_formed : DXIL.well_formed DXIL.sample_encoding.
Proof.
  split.
  - apply (bool_decide_unpack _). by vm_compute.
  - repeat constructor; unfold is_u32; simpl; lia.
Qed.

(** 2 CBuffers, 1 Sampler, 3 SRVs, 1 UAV: the counters are (2, 1, 3, 1)
    and [GetSRV(0)] is the record at index 3. *)
Lemma class_accessors_index_their_group_witness :
  ∃ rd',
    ResourceTableReader.SetResourceInfo (RC := DXIL.sample_encoding)
      ResourceTableReader.default (Ptr sample_table 0) 7 = Some rd' ∧
    counters rd' = (2, 1, 3, 1) ∧
    ResourceTableReader.GetSRV rd' 0 = ResourceTableReader.GetItem rd' 3 ∧
    views (ResourceTableReader.GetSRV rd' 0) sample_table 3 ∧
    ResourceReader.GetResourceClass (ResourceTableReader.GetSRV rd' 0) = Some 0.
Proof.
  destruct (class_accessors_index_their_group (RC := DXIL.sample_encoding)
              sample_encoding_well_formed ResourceTableReader.default
              (Ptr sample_table 0)
              sample_cbuffers sample_samplers sample_srvs sample_uavs)
    as (rd' & Hset & Hcnt & _ & _ & Hsrv & _).
  - repeat constructor.
  - repeat constructor.
  - repeat constructor.
  - repeat constructor.
  - exact (array_at_whole sample_table).
  - simpl. lia.
  - exists rd'. split; [exact Hset|]. split; [exact Hcnt|].
    injection Hcnt as Hc Hs Hv Hu.
    destruct (Hsrv 0) as (H1 & H2 & H3); [lia|].
    rewrite Hc, Hs in H1, H2. split; [exact H1|]. split; [exact H2|exact H3].
Defined.

(** C3 as stated fails: under [DXIL.sample_encoding] a table of one record
    whose [Class] is 4, none of the four tallied values, makes
    [GetNumResources()] return 0, not 1. *)
Lemma GetNumResources_skips_untallied_class :
  ResourceTableReader.GetNumResources <$>
    ResourceTableReader.SetResourceInfo (RC := DXIL.sample_encoding)
      ResourceTableReader.default (Ptr [sample_record 4 0] 0) 1
  = Some 0 ∧
  ResourceTableReader.GetNumResources <$>
    ResourceTableReader.SetResourceInfo (RC := DXIL.sample_encoding)
      ResourceTableReader.default (Ptr [sample_record 4 0] 0) 1
  ≠ Some 1.
Proof. split; [reflexivity|discriminate]. Qed.

(** Whatever the encoding of the four enumerators, some 32-bit class value
    is left out of the tally. *)
Lemma untallied_class_exists (RC : DXIL.ResourceClass) :
  ∃ cls, is_u32 cls ∧ ¬ tallied cls ∧
    ∀ rd, ResourceTableReader.GetNumResources <$>
            ResourceTableReader.SetResourceInfo rd
              (Ptr [sample_record cls 0] 0) 1 = Some 0.
Proof.
  assert (Hex : ∃ cls, 0 ≤ cls < 5 ∧ ¬ tallied cls).
  { destruct (decide (tallied 0)) as [H0|]; [|exists 0; split; [lia|done]].
    destruct (decide (tallied 1)) as [H1|]; [|exists 1; split; [lia|done]].
    destruct (decide (tallied 2)) as [H2|]; [|exists 2; split; [lia|done]].
    destruct (decide (tallied 3)) as [H3|]; [|exists 3; split; [lia|done]].
    exists 4. split; [lia|].
    rewrite tallied_iff in *. lia. }
  destruct Hex as (cls & Hr & Hn). exists cls.
  split; [unfold is_u32; lia|]. split; [done|].
  intros rd. rewrite tallied_iff in Hn.
  unfold ResourceTableReader.SetResourceInfo; simpl.
  unfold ResourceTableReader.tally; simpl.
  repeat case_decide; try tauto; try lia; reflexivity.
Qed.

(** The sample table has only tallied classes: the total is 7. *)
Lemma GetNumResources_counts_tallied_classes_witness :
  ∃ rd',
    ResourceTableReader.SetResourceInfo (RC := DXIL.sample_encoding)
      ResourceTableReader.default (Ptr sample_table 0) 7 = Some rd' ∧
    ResourceTableReader.GetNumResources rd' = 7.
Proof.
  destruct (GetNumResources_counts_tallied_classes (RC := DXIL.sample_encoding)
              ResourceTableReader.default (Ptr sample_table 0) sample_table)
    as (rd' & Hset & _ & Hall).
  - exact (array_at_whole sample_table).
  - simpl. lia.
  - exists rd'. split; [exact Hset|].
    apply Hall. apply (bool_decide_unpack _). by vm_compute.
Defined.

(** A fresh reader and one with stale counters (10, 20, 30, 40) end with
    the same counters on the sample table, and a second scan is a
    no-op. *)
Lemma SetResourceInfo_forgets_prior_state_witness :
  ∃ r1 r2,
    ResourceTableReader.SetResourceInfo (RC := DXIL.sample_encoding)
      ResourceTableReader.default (Ptr sample_table 0) 7 = Some r1 ∧
    ResourceTableReader.SetResourceInfo (RC := DXIL.sample_encoding)
      (ResourceTableReader.mk nullptr 5%N 10 20 30 40)
      (Ptr sample_table 0) 7 = Some r2 ∧
    counters r1 = counters r2 ∧
    ResourceTableReader.GetNumResources r1
      = ResourceTableReader.GetNumResources r2 ∧
    ResourceTableReader.SetResourceInfo (RC := DXIL.sample_encoding)
      r1 (Ptr sample_table 0) 7 = Some r1.
Proof.
  apply (SetResourceInfo_forgets_prior_state (RC := DXIL.sample_encoding)
           ResourceTableReader.default
           (ResourceTableReader.mk nullptr 5%N 10 20 30 40)
           (Ptr sample_table 0) sample_table).
  - exact (array_at_whole sample_table).
  - simpl. lia.
Defined.

Example SetResourceInfo_stale_counters :
  counters <$>
    ResourceTableReader.SetResourceInfo (RC := DXIL.sample_encoding)
      (ResourceTableReader.mk nullptr 5%N 10 20 30 40) (Ptr sample_table 0) 7
  = Some (2, 1, 3, 1).
Proof. reflexivity. Qed.

(** ** FunctionReader *)

(** Bits of a 32-bit value at and above position 32 are clear. *)
Lemma u32_high_bits (z n : Z) : is_u32 z → 32 ≤ n → Z.testbit z n = false.
Proof.
  intros [Hlo Hhi] Hn.
  destruct (decide (z = 0)) as [->|Hz]; [apply Z.bits_0|].
  apply Z.bits_above_log2; [lia|].
  assert (Z.log2 z < 32); [|lia].
  apply Z.log2_lt_pow2; lia.
Qed.

(** [(hi << 32) | lo] on 32-bit halves is [hi * 2^32 + lo]: the shift does
    not overflow 64 bits and the two operands share no bit. *)
Lemma lor_shl64_u32 (lo hi : Z) :
  is_u32 lo → is_u32 hi →
  Z.lor (shl64 hi 32) lo = hi * 2 ^ 32 + lo.
Proof.
  intros Hlo Hhi. unfold shl64, wrap64.
  rewrite Z.shiftl_mul_pow2 by lia.
  rewrite Z.mod_small by (unfold is_u32 in *; lia).
  assert (Hdisj : Z.land (hi * 2 ^ 32) lo = 0).
  { apply Z.bits_inj'. intros n Hn.
    rewrite Z.land_spec, Z.bits_0.
    destruct (decide (n < 32)).
    - rewrite Z.mul_pow2_bits_low by lia. done.
    - rewrite (u32_high_bits lo n Hlo) by lia. apply andb_false_r. }
  rewrite <- Z.lxor_lor by done.
  symmetry. by apply Z.add_nocarry_lxor.
Qed.

(** C5. [GetFeatureFlag()] is the 64-bit value [(high << 32) | low]: its
    low 32 bits are [FeatureInfo1], its high 32 bits are [FeatureInfo2]. *)
Theorem GetFeatureFlag_combines_halves (f : FunctionReader.t)
    (info : RuntimeDataFunctionInfo) :
  load (FunctionReader.m_RuntimeDataFunctionInfo f) = Some info →
  is_u32 (FeatureInfo1 info) →
  is_u32 (FeatureInfo2 info) →
  ∃ flag,
    FunctionReader.GetFeatureFlag f = Some flag ∧
    is_u64 flag ∧
    flag = Z.lor (Z.shiftl (FeatureInfo2 info) 32) (FeatureInfo1 info) ∧
    flag = FeatureInfo2 info * 2 ^ 32 + FeatureInfo1 info ∧
    Z.land flag (Z.ones 32) = FeatureInfo1 info ∧
    Z.shiftr flag 32 = FeatureInfo2 info.
Proof.
  intros Hld Hlo Hhi.
  unfold FunctionReader.GetFeatureFlag. rewrite Hld. simpl.
  eexists. split; [reflexivity|].
  pose proof (lor_shl64_u32 _ _ Hlo Hhi) as Hflag.
  assert (Hsh : shl64 (FeatureInfo2 info) 32 = Z.shiftl (FeatureInfo2 info) 32).
  { unfold shl64, wrap64. rewrite Z.shiftl_mul_pow2 by lia.
    apply Z.mod_small. unfold is_u32 in *. lia. }
  rewrite Hflag. unfold is_u32, is_u64 in *.
  split; [lia|]. split; [by rewrite <- Hsh|]. split; [done|].
  split.
  - rewrite Z.land_ones by lia.
    rewrite Z.add_comm, Z.mod_add by lia. apply Z.mod_small. lia.
  - rewrite Z.shiftr_div_pow2 by lia.
    rewrite Z.add_comm, Z.div_add by lia. rewrite Z.div_small by lia. lia.
Qed.

(** [FeatureInfo1 = 0xFFFFFFFF] and [FeatureInfo2 = 0x1] give
    [0x1FFFFFFFF]. *)
Lemma GetFeatureFlag_combines_halves_witness :
  FunctionReader.GetFeatureFlag
    (sample_view (sample_function UINT_MAX UINT_MAX 0xFFFFFFFF 0x1) 1%N)
  = Some 0x1FFFFFFFF.
Proof.
  destruct (GetFeatureFlag_combines_halves
              (sample_view (sample_function UINT_MAX UINT_MAX 0xFFFFFFFF 0x1) 1%N)
              (sample_function UINT_MAX UINT_MAX 0xFFFFFFFF 0x1))
    as (flag & Hget & _ & _ & Hval & _).
  - reflexivity.
  - unfold is_u32; simpl; lia.
  - unfold is_u32; simpl; lia.
  - rewrite Hget, Hval. reflexivity.
Defined.

(** C4. [GetNumResources()] is 0 when [Resources] is the sentinel
    [UINT_MAX], the largest 32-bit value, and the count of the index-table
    row at [Resources] otherwise; [GetNumDependencies()] does the same
    with [FunctionDependencies].  In the sentinel case the answer is 0 in
    every store, also one without a context or an index table: the table
    is not read. *)
Theorem count_accessors_guard_sentinel (h : store) (f : FunctionReader.t)
    (info : RuntimeDataFunctionInfo) :
  load (FunctionReader.m_RuntimeDataFunctionInfo f) = Some info →
  (is_u32 UINT_MAX ∧ ∀ z, is_u32 z → z ≤ UINT_MAX) ∧
  (Resources info = UINT_MAX →
   ∀ h' : store, FunctionReader.GetNumResources h' f = Some 0) ∧
  (Resources info ≠ UINT_MAX →
   FunctionReader.GetNumResources h f
   = (FunctionReader.indices h f ≫= λ it,
        IndexTableReader.Count <$> IndexTableReader.getRow it (Resources info)) ∧
   ∀ it t c,
     FunctionReader.indices h f = Some it →
     array_at (IndexTableReader.m_table it) t →
     0 ≤ Resources info →
     t !! Z.to_nat (Resources info) = Some c →
     FunctionReader.GetNumResources h f = Some c) ∧
  (FunctionDependencies info = UINT_MAX →
   ∀ h' : store, FunctionReader.GetNumDependencies h' f = Some 0) ∧
  (FunctionDependencies info ≠ UINT_MAX →
   FunctionReader.GetNumDependencies h f
   = (FunctionReader.indices h f ≫= λ it,
        IndexTableReader.Count
          <$> IndexTableReader.getRow it (FunctionDependencies info)) ∧
   ∀ it t c,
     FunctionReader.indices h f = Some it →
     array_at (IndexTableReader.m_table it) t →
     0 ≤ FunctionDependencies info →
     t !! Z.to_nat (FunctionDependencies info) = Some c →
     FunctionReader.GetNumDependencies h f = Some c).
Proof.
  intros Hld.
  unfold FunctionReader.GetNumResources, FunctionReader.GetNumDependencies.
  rewrite Hld. simpl.
  split; [unfold is_u32, UINT_MAX; split; [lia|intros z Hz; lia]|].
  split; [intros Hr h'; by rewrite decide_True|].
  split.
  { intros Hr. rewrite decide_False by done. split.
    - destruct (FunctionReader.indices h f) as [it|]; simpl; [|done].
      by destruct (IndexTableReader.getRow it (Resources info)).
    - intros it t c -> Ht Hpos Hc. simpl.
      unfold IndexTableReader.getRow.
      by rewrite (array_at_load _ _ _ _ Ht Hpos Hc). }
  split; [intros Hr h'; by rewrite decide_True|].
  intros Hr. rewrite decide_False by done. split.
  - destruct (FunctionReader.indices h f) as [it|]; simpl; [|done].
    by destruct (IndexTableReader.getRow it (FunctionDependencies info)).
  - intros it t c -> Ht Hpos Hc. simpl.
    unfold IndexTableReader.getRow.
    by rewrite (array_at_load _ _ _ _ Ht Hpos Hc).
Qed.

(** A function without resources whose dependencies are the row at offset
    0 of [3; 5; 1; 3]: no resources in the empty store, three
    dependencies in the sample store. *)
Lemma count_accessors_guard_sentinel_witness :
  FunctionReader.GetNumResources ∅ (sample_view (sample_function UINT_MAX 0 0 0) 1%N)
    = Some 0 ∧
  FunctionReader.GetNumDependencies sample_store
    (sample_view (sample_function UINT_MAX 0 0 0) 1%N) = Some 3.
Proof.
  destruct (count_accessors_guard_sentinel sample_store
              (sample_view (sample_function UINT_MAX 0 0 0) 1%N)
              (sample_function UINT_MAX 0 0 0) eq_refl)
    as (_ & Hres & _ & _ & Hdep).
  split.
  - apply Hres. reflexivity.
  - destruct Hdep as [_ Hdep]; [discriminate|].
    apply (Hdep sample_indices [3; 5; 1; 3] 3).
    + reflexivity.
    + exact (array_at_whole [3; 5; 1; 3]).
    + simpl. lia.
    + reflexivity.
Defined.

(** C6. The [i]-th element of the row that [Resources] references is
    resolved by [GetResource(i)] as an index into the resource table
    ([GetItem]), and the [i]-th element of the row that
    [FunctionDependencies] references is resolved by [GetDependency(i)] as
    an offset into the string table ([Get]). *)
Theorem row_elements_resolve_by_field (h : store) (f : FunctionReader.t)
    (info : RuntimeDataFunctionInfo) (it : IndexTableReader.t)
    (t : list Z) (i : Z) :
  load (FunctionReader.m_RuntimeDataFunctionInfo f) = Some info →
  FunctionReader.indices h f = Some it →
  array_at (IndexTableReader.m_table it) t →
  (∀ rt c,
     FunctionReader.resources h f = Some rt →
     Resources info ≠ UINT_MAX →
     0 ≤ Resources info →
     t !! Z.to_nat (Resources info) = Some c →
     Resources info + 1 + c ≤ Z.of_nat (length t) →
     0 ≤ i < c →
     ∃ e, t !! Z.to_nat (Resources info + 1 + i) = Some e ∧
          FunctionReader.GetResource h f i
          = Some (ResourceTableReader.GetItem rt e)) ∧
  (∀ st c,
     FunctionReader.strings h f = Some st →
     FunctionDependencies info ≠ UINT_MAX →
     0 ≤ FunctionDependencies info →
     t !! Z.to_nat (FunctionDependencies info) = Some c →
     FunctionDependencies info + 1 + c ≤ Z.of_nat (length t) →
     0 ≤ i < c →
     ∃ e, t !! Z.to_nat (FunctionDependencies info + 1 + i) = Some e ∧
          FunctionReader.GetDependency h f i
          = Some (StringTableReader.Get st e)).
Proof.
  intros Hld Hit Ht. split.
  - intros rt c Hrt _ Hpos Hc Hlen Hi.
    destruct (getRow_At it t _ c Ht Hpos Hc Hlen) as (row & Hrow & _ & Hat).
    destruct (Hat i Hi) as (e & He & Hate).
    exists e. split; [done|].
    unfold FunctionReader.GetResource.
    rewrite Hit, Hld. simpl. rewrite Hrow. simpl. rewrite Hate. simpl.
    by rewrite Hrt.
  - intros st c Hst _ Hpos Hc Hlen Hi.
    destruct (getRow_At it t _ c Ht Hpos Hc Hlen) as (row & Hrow & _ & Hat).
    destruct (Hat i Hi) as (e & He & Hate).
    exists e. split; [done|].
    unfold FunctionReader.GetDependency.
    rewrite Hit, Hld. simpl. rewrite Hrow. simpl. rewrite Hate. simpl.
    by rewrite Hst.
Qed.

(** One row, two readings.  In [3; 5; 1; 3] the row at offset 2 is
    {1, [3]}; a function whose [Resources] and [FunctionDependencies] are
    both 2 gets resource 3 of the resource table from [GetResource(0)] and
    the string at byte 3 of the string table from [GetDependency(0)]. *)
Lemma row_elements_resolve_by_field_witness :
  FunctionReader.GetResource sample_store
    (sample_view (sample_function 2 2 0 0) 1%N) 0
    = Some (ResourceTableReader.GetItem sample_resources 3) ∧
  FunctionReader.GetDependency sample_store
    (sample_view (sample_function 2 2 0 0) 1%N) 0
    = Some (StringTableReader.Get sample_strings 3).
Proof.
  destruct (row_elements_resolve_by_field sample_store
              (sample_view (sample_function 2 2 0 0) 1%N)
              (sample_function 2 2 0 0) sample_indices [3; 5; 1; 3] 0
              eq_refl eq_refl (array_at_whole [3; 5; 1; 3]))
    as [Hres Hdep].
  split.
  - destruct (Hres sample_resources 1) as (e & He & Hget).
    + reflexivity.
    + discriminate.
    + simpl. lia.
    + reflexivity.
    + simpl. lia.
    + lia.
    + injection He as <-. exact Hget.
  - destruct (Hdep sample_strings 1) as (e & He & Hget).
    + reflexivity.
    + discriminate.
    + simpl. lia.
    + reflexivity.
    + simpl. lia.
    + lia.
    + injection He as <-. exact Hget.
Defined.

(** C8. [GetPayloadSizeInBytes()] and [GetParameterSizeInBytes()] return
    the same value, the stored [PayloadSizeInBytes], whatever the
    [ShaderKind] of the record. *)
Theorem payload_and_parameter_size_alias (f : FunctionReader.t) :
  FunctionReader.GetPayloadSizeInBytes f
    = FunctionReader.GetParameterSizeInBytes f ∧
  ∀ name unmangled res deps kind size attr lo hi stage target,
    load (FunctionReader.m_RuntimeDataFunctionInfo f)
      = Some (mkFunctionInfo name unmangled res deps kind size attr lo hi
                             stage target) →
    FunctionReader.GetPayloadSizeInBytes f = Some size ∧
    FunctionReader.GetParameterSizeInBytes f = Some size.
Proof.
  split; [reflexivity|].
  intros name unmangled res deps kind size attr lo hi stage target Hld.
  unfold FunctionReader.GetPayloadSizeInBytes,
    FunctionReader.GetParameterSizeInBytes.
  by rewrite Hld.
Qed.

Lemma payload_and_parameter_size_alias_witness :
  FunctionReader.GetPayloadSizeInBytes
    (sample_view (mkFunctionInfo 0 0 0 0 12 64 0 0 0 0 0) 1%N) = Some 64 ∧
  FunctionReader.GetParameterSizeInBytes
    (sample_view (mkFunctionInfo 0 0 0 0 12 64 0 0 0 0 0) 1%N) = Some 64.
Proof.
  destruct (payload_and_parameter_size_alias
              (sample_view (mkFunctionInfo 0 0 0 0 12 64 0 0 0 0 0) 1%N))
    as [_ Hsize].
  apply (Hsize 0 0 0 0 12 64 0 0 0 0 0). reflexivity.
Defined.

(** ** Unchecked indexing *)

(** C10. No table accessor checks its argument: for every [i] the two
    [GetItem]s return a handle on slot [i] of the record array and [Get]
    returns the table base plus [offset]; the stored counts and size do
    not enter, and no argument is rejected. *)
Theorem accessors_do_not_check_bounds (i : Z) :
  (∀ rt : ResourceTableReader.t,
     let v := ResourceTableReader.GetItem rt i in
     buffer (ResourceReader.m_ResourceInfo v)
       = buffer (ResourceTableReader.m_ResourceInfo rt) ∧
     index (ResourceReader.m_ResourceInfo v)
       = index (ResourceTableReader.m_ResourceInfo rt) + i ∧
     ResourceReader.m_Context v = ResourceTableReader.m_Context rt) ∧
  (∀ info ctx a b c d a' b' c' d',
     ResourceTableReader.GetItem (ResourceTableReader.mk info ctx a b c d) i
     = ResourceTableReader.GetItem (ResourceTableReader.mk info ctx a' b' c' d') i) ∧
  (∀ ft : FunctionTableReader.t,
     let v := FunctionTableReader.GetItem ft i in
     buffer (FunctionReader.m_RuntimeDataFunctionInfo v)
       = buffer (FunctionTableReader.m_infos ft) ∧
     index (FunctionReader.m_RuntimeDataFunctionInfo v)
       = index (FunctionTableReader.m_infos ft) + i ∧
     FunctionReader.m_Context v = FunctionTableReader.m_context ft) ∧
  (∀ infos ctx n n',
     FunctionTableReader.GetItem (FunctionTableReader.mk infos n ctx) i
     = FunctionTableReader.GetItem (FunctionTableReader.mk infos n' ctx) i) ∧
  (∀ st : StringTableReader.t,
     buffer (StringTableReader.Get st i) = buffer (StringTableReader.m_table st) ∧
     index (StringTableReader.Get st i)
       = index (StringTableReader.m_table st) + i) ∧
  (∀ table n n',
     StringTableReader.Get (StringTableReader.mk table n) i
     = StringTableReader.Get (StringTableReader.mk table n') i).
Proof. repeat split. Qed.

(** Past the end: slot 9 of the seven-record sample table, function 5 of
    an empty function table, byte 100 of a six-byte string table. *)
Example out_of_range_handles :
  ResourceTableReader.GetItem sample_resources 9
    = ResourceReader.mk (Ptr sample_table 9) 1%N ∧
  ResourceReader.GetID (ResourceTableReader.GetItem sample_resources 9) = None ∧
  FunctionTableReader.GetItem FunctionTableReader.default 5
    = FunctionReader.mk (Ptr [] 5) 0%N ∧
  StringTableReader.Get sample_strings 100
    = Ptr [Byte.x61; Byte.x62; Byte.x00; Byte.x63; Byte.x64; Byte.x00] 100.
Proof. repeat split. Qed.

(** * Further properties of the readers *)

(** ** IndexRow::At *)

(** X1. [At(i)] reads [t[r + 1 + i]] for every [i] that stays inside the
    table: the row's own count is not consulted, so an index at or past
    [Count()] reads on into whatever follows the row. *)
Theorem At_reads_past_count (rd : IndexTableReader.t) (t : list Z)
    (r c i x : Z) :
  array_at (IndexTableReader.m_table rd) t →
  0 ≤ r →
  t !! Z.to_nat r = Some c →
  0 ≤ i →
  t !! Z.to_nat (r + 1 + i) = Some x →
  ∃ row,
    IndexTableReader.getRow rd r = Some row ∧
    IndexTableReader.Count row = c ∧
    IndexTableReader.At row i = Some x.
Proof.
  intros Ht Hr Hc Hi Hx.
  unfold IndexTableReader.getRow.
  rewrite (array_at_load _ _ _ _ Ht Hr Hc). simpl.
  eexists. split; [reflexivity|]. split; [reflexivity|].
  unfold IndexTableReader.At; simpl. rewrite !ptr_add_add.
  replace (r + 1 + i) with (r + (1 + i)) in Hx by lia.
  apply (array_at_load _ _ _ _ Ht); [lia|done].
Qed.

(** In [1; 7; 2; 8; 9] the row at offset 0 is {1, [7]}; [At(2)] on it
    returns 8, an element of the next row. *)
Lemma At_reads_past_count_witness :
  ∃ row,
    IndexTableReader.getRow (IndexTableReader.mk (Ptr [1; 7; 2; 8; 9] 0) 5) 0
      = Some row ∧
    IndexTableReader.Count row = 1 ∧
    IndexTableReader.At row 2 = Some 8.
Proof.
  apply (At_reads_past_count
           (IndexTableReader.mk (Ptr [1; 7; 2; 8; 9] 0) 5)
           [1; 7; 2; 8; 9] 0 1 2 8).
  - exact (array_at_whole [1; 7; 2; 8; 9]).
  - lia.
  - reflexivity.
  - lia.
  - reflexivity.
Defined.

(** ** StringTableReader::Get and the strings it denotes *)

Lemma until_nul_iff (bs s : list Byte.byte) :
  until_nul bs = Some s ↔
  (Byte.x00 ∉ s) ∧ (∃ rest, bs = s ++ Byte.x00 :: rest).
Proof.
  split; [apply until_nul_Some|].
  intros (Hs & rest & ->). by apply until_nul_app.
Qed.

(** X2. [Get(offset)] denotes the string [s] exactly when the buffer, from the
    table base plus [offset] on, reads [s], free of NUL, and then a NUL.
    Nothing else makes it defined: not the stored size, and not an offset
    before the buffer or with no NUL after it. *)
Theorem Get_defined_iff_terminated (rd : StringTableReader.t) (offset : Z)
    (s : list Byte.byte) :
  c_str (StringTableReader.Get rd offset) = Some s ↔
  0 ≤ index (StringTableReader.m_table rd) + offset ∧
  (Byte.x00 ∉ s) ∧
  (∃ rest,
     drop (Z.to_nat (index (StringTableReader.m_table rd) + offset))
          (buffer (StringTableReader.m_table rd))
     = s ++ Byte.x00 :: rest).
Proof.
  unfold c_str, StringTableReader.Get, ptr_add; simpl.
  case_decide as Hpos.
  - rewrite until_nul_iff. tauto.
  - split; [done|]. intros [? _]. lia.
Qed.



(** The string [Get(offset)] denotes in a table that ends in NUL. *)
Lemma Get_c_str (rd : StringTableReader.t) (bytes : list Byte.byte)
    (offset : Z) :
  array_at (StringTableReader.m_table rd) bytes →
  last bytes = Some Byte.x00 →
  0 ≤ offset < Z.of_nat (length bytes) →
  ∃ s rest,
    c_str (StringTableReader.Get rd offset) = Some s ∧
    (Byte.x00 ∉ s) ∧
    drop (Z.to_nat offset) bytes = s ++ Byte.x00 :: rest.
Proof.
  intros Hp Hlast Hoff.
  assert (Hin : Byte.x00 ∈ drop (Z.to_nat offset) bytes).
  { apply list_elem_of_lookup. exists (length bytes - 1 - Z.to_nat offset)%nat.
    rewrite lookup_drop.
    replace (Z.to_nat offset + (length bytes - 1 - Z.to_nat offset))%nat
      with (length bytes - 1)%nat by lia.
    rewrite last_lookup in Hlast.
    by replace (length bytes - 1)%nat with (Nat.pred (length bytes)) by lia. }
  apply list_elem_of_split_l in Hin as (s & rest & Hd & Hs).
  exists s, rest. split; [|done].
  pose proof (array_at_drop _ _ (Z.to_nat offset) Hp) as Hpk.
  rewrite Z2Nat.id in Hpk by lia.
  destruct (array_at_buffer _ _ Hpk) as (Hidx & more & Hbuf).
  { intros E. apply (f_equal length) in E. rewrite length_drop in E.
    simpl in E. lia. }
  unfold c_str, StringTableReader.Get. case_decide; [|done].
  rewrite Hbuf, Hd, <- app_assoc. simpl. by apply until_nul_app.
Qed.

(** ** ResourceTableReader on arbitrary arrays *)

Section UngroupedScan.
Context {RC : DXIL.ResourceClass}.

Import ResourceTableReader.

Lemma foldl_tally_headroom (l : list Z) :
  ∀ (rd : t) (room : Z), 0 ≤ room →
    headroom rd (room + Z.of_nat (length l)) →
    headroom (foldl tally rd l) room.
Proof.
  induction l as [|cls l IH]; intros rd room Hroom Hrd; simpl foldl.
  - by replace (room + Z.of_nat (length (@nil Z))) with room in Hrd
      by (simpl length; lia).
  - apply IH; [done|].
    apply (tally_headroom rd cls (room + Z.of_nat (length l))); [|lia].
    by replace (room + Z.of_nat (length l) + 1)
      with (room + Z.of_nat (length (cls :: l))) by (simpl length; lia).
Qed.

Lemma foldl_tally_retarget (info : ptr RuntimeDataResourceInfo) (ctx : addr)
    (l : list Z) :
  ∀ rd : t,
    foldl tally (retarget info ctx rd) l = retarget info ctx (foldl tally rd l).
Proof.
  induction l as [|cls l IH]; intros rd; simpl; [done|].
  by rewrite tally_retarget, IH.
Qed.

(** Two tally steps commute, whatever the classes and the encoding. *)
Lemma tally_comm (rd : t) (a b : Z) :
  tally (tally rd a) b = tally (tally rd b) a.
Proof.
  unfold tally.
  destruct (decide (a = DXIL.CBuffer)), (decide (a = DXIL.Sampler)),
    (decide (a = DXIL.SRV)), (decide (a = DXIL.UAV));
    destruct (decide (b = DXIL.CBuffer)), (decide (b = DXIL.Sampler)),
      (decide (b = DXIL.SRV)), (decide (b = DXIL.UAV));
    reflexivity.
Qed.

Lemma foldl_tally_Permutation (l l' : list Z) :
  l ≡ₚ l' → ∀ rd : t, foldl tally rd l = foldl tally rd l'.
Proof.
  induction 1 as [|x l l' _ IH|x y l|l l' l'' _ IH1 _ IH2]; intros rd; simpl.
  - done.
  - apply IH.
  - by rewrite tally_comm.
  - by rewrite IH1, IH2.
Qed.

Lemma count_if_pos {A : Type} (P : A → Prop) `{∀ x, Decision (P x)}
    (l : list A) (x : A) :
  x ∈ l → P x → 0 < count_if P l.
Proof.
  intros Hin HP. apply list_elem_of_split in Hin as (l1 & l2 & ->).
  rewrite count_if_app, count_if_cons, decide_True by done.
  pose proof (count_if_bounds P l1). pose proof (count_if_bounds P l2). lia.
Qed.

(** The reader a scan leaves behind, for any array and distinct
    enumerators. *)
Lemma SetResourceInfo_counters (Hrc : DXIL.well_formed RC) (rd : t)
    (p : ptr RuntimeDataResourceInfo) (recs : list RuntimeDataResourceInfo) :
  array_at p recs → Z.of_nat (length recs) < 2 ^ 32 →
  SetResourceInfo rd p (Z.of_nat (length recs))
  = Some (mk p (m_Context rd)
             (count_if (λ r, Class r = DXIL.CBuffer) recs)
             (count_if (λ r, Class r = DXIL.Sampler) recs)
             (count_if (λ r, Class r = DXIL.SRV) recs)
             (count_if (λ r, Class r = DXIL.UAV) recs)).
Proof.
  intros Hp Hlen. unfold SetResourceInfo.
  rewrite Nat2Z.id.
  rewrite (scan_foldl p _ Hp Hlen _ 0%nat) by lia.
  rewrite drop_0, (foldl_tally_counters Hrc).
  2:{ unfold headroom; simpl. rewrite length_fmap. lia. }
  simpl. by rewrite !count_if_fmap.
Qed.

(** X4. Whether or not the array is grouped, with distinct enumerators
    each counter is the number of records of its class; they add up,
    without wrapping, to [GetNumResources()], which is at most the number
    of records scanned. *)
Theorem counters_count_each_class (Hrc : DXIL.well_formed RC) (rd : t)
    (p : ptr RuntimeDataResourceInfo) (recs : list RuntimeDataResourceInfo) :
  array_at p recs →
  Z.of_nat (length recs) < 2 ^ 32 →
  ∃ rd',
    SetResourceInfo rd p (Z.of_nat (length recs)) = Some rd' ∧
    GetNumCBuffers rd' = count_if (λ r, Class r = DXIL.CBuffer) recs ∧
    GetNumSamplers rd' = count_if (λ r, Class r = DXIL.Sampler) recs ∧
    GetNumSRVs rd' = count_if (λ r, Class r = DXIL.SRV) recs ∧
    GetNumUAVs rd' = count_if (λ r, Class r = DXIL.UAV) recs ∧
    GetNumResources rd'
      = GetNumCBuffers rd' + GetNumSamplers rd' + GetNumSRVs rd'
        + GetNumUAVs rd' ∧
    GetNumResources rd' ≤ Z.of_nat (length recs).
Proof.
  intros Hp Hlen.
  destruct (SetResourceInfo_total rd p recs Hp Hlen) as (rd' & Hset & Htot).
  exists rd'. split; [done|].
  pose proof (count_if_bounds (λ r, tallied (Class r)) recs) as Hb.
  rewrite <- Htot in Hb. clear Htot.
  rewrite (SetResourceInfo_counters Hrc) in Hset by done.
  injection Hset as <-.
  assert (Hh : headroom
                 (foldl tally (mk p (m_Context rd) 0 0 0 0) (Class <$> recs)) 0).
  { apply foldl_tally_headroom; [lia|].
    unfold headroom; simpl. rewrite length_fmap. lia. }
  rewrite (foldl_tally_counters Hrc) in Hh.
  2:{ unfold headroom; simpl. rewrite length_fmap. lia. }
  unfold headroom in Hh. simpl in Hh. rewrite !count_if_fmap in Hh.
  destruct Hh as (Ha & Hb' & Hc & Hd & Hsum).
  repeat (split; [reflexivity|]).
  split; [|lia].
  unfold GetNumResources, GetNumCBuffers, GetNumSamplers, GetNumSRVs,
    GetNumUAVs; simpl. no_wrap. lia.
Qed.

(** X5. The scan does not look at the order of the records: two arrays
    that are permutations of each other leave the same counters and the
    same total, for any encoding of the enumerators. *)
Theorem counters_ignore_record_order (rd : t)
    (p p' : ptr RuntimeDataResourceInfo)
    (recs recs' : list RuntimeDataResourceInfo) :
  array_at p recs →
  array_at p' recs' →
  recs ≡ₚ recs' →
  Z.of_nat (length recs) < 2 ^ 32 →
  ∃ r r',
    SetResourceInfo rd p (Z.of_nat (length recs)) = Some r ∧
    SetResourceInfo rd p' (Z.of_nat (length recs')) = Some r' ∧
    counters r = counters r' ∧
    GetNumResources r = GetNumResources r'.
Proof.
  intros Hp Hp' Hperm Hlen.
  assert (Hlen' : Z.of_nat (length recs') < 2 ^ 32).
  { by rewrite <- (Permutation_length Hperm). }
  unfold SetResourceInfo. rewrite !Nat2Z.id.
  rewrite (scan_foldl p _ Hp Hlen _ 0%nat) by lia.
  rewrite (scan_foldl p' _ Hp' Hlen' _ 0%nat) by lia.
  rewrite !drop_0. eexists _, _. split; [reflexivity|]. split; [reflexivity|].
  assert (Hfold : foldl tally (mk p' (m_Context rd) 0 0 0 0) (Class <$> recs')
                  = retarget p' (m_Context rd)
                      (foldl tally (mk p (m_Context rd) 0 0 0 0) (Class <$> recs))).
  { rewrite <- foldl_tally_retarget.
    apply foldl_tally_Permutation. by rewrite Hperm. }
  rewrite Hfold. split; reflexivity.
Qed.

(** X6. Grouping is assumed, not checked.  If the first record is not a
    CBuffer but a CBuffer occurs later in the array, [GetNumCBuffers()] is
    positive and [GetCBuffer(0)] hands out the first record, whose class
    is not CBuffer. *)
Theorem GetCBuffer_misattributes_when_ungrouped (Hrc : DXIL.well_formed RC)
    (rd : t) (p : ptr RuntimeDataResourceInfo)
    (r0 r : RuntimeDataResourceInfo) (rest : list RuntimeDataResourceInfo) :
  Class r0 ≠ DXIL.CBuffer →
  r ∈ rest →
  Class r = DXIL.CBuffer →
  array_at p (r0 :: rest) →
  Z.of_nat (length (r0 :: rest)) < 2 ^ 32 →
  ∃ rd',
    SetResourceInfo rd p (Z.of_nat (length (r0 :: rest))) = Some rd' ∧
    0 < GetNumCBuffers rd' ∧
    views (GetCBuffer rd' 0) (r0 :: rest) 0 ∧
    ResourceReader.GetResourceClass (GetCBuffer rd' 0) = Some (Class r0) ∧
    ResourceReader.GetResourceClass (GetCBuffer rd' 0) ≠ Some DXIL.CBuffer.
Proof.
  intros Hr0 Hin Hr Hp Hlen.
  eexists. split; [by apply (SetResourceInfo_counters Hrc)|].
  unfold GetNumCBuffers, GetCBuffer; simpl.
  assert (Hld : load (ptr_add p 0) = Some r0).
  { by apply (array_at_load _ _ _ _ Hp). }
  split.
  { apply (count_if_pos _ _ r); [by apply elem_of_cons; right|done]. }
  split; [by exists r0|].
  unfold ResourceReader.GetResourceClass; simpl. rewrite Hld; simpl.
  split; [done|]. by intros [= ?].
Qed.

End UngroupedScan.

Lemma counters_count_each_class_witness :
  ∃ rd',
    ResourceTableReader.SetResourceInfo (RC := DXIL.sample_encoding)
      ResourceTableReader.default (Ptr sample_ungrouped 0) 4 = Some rd' ∧
    counters rd' = (2, 0, 1, 1) ∧
    ResourceTableReader.GetNumResources rd' = 4.
Proof.
  destruct (counters_count_each_class (RC := DXIL.sample_encoding)
              sample_encoding_well_formed ResourceTableReader.default
              (Ptr sample_ungrouped 0) sample_ungrouped)
    as (rd' & Hset & Hc & Hs & Hv & Hu & Hsum & _).
  - exact (array_at_whole sample_ungrouped).
  - simpl. lia.
  - exists rd'. split; [exact Hset|].
    unfold counters. rewrite Hsum, Hc, Hs, Hv, Hu. split; reflexivity.
Defined.

(** The sample table and its reverse. *)
Lemma counters_ignore_record_order_witness :
  ∃ r r',
    ResourceTableReader.SetResourceInfo (RC := DXIL.sample_encoding)
      ResourceTableReader.default (Ptr sample_table 0) 7 = Some r ∧
    ResourceTableReader.SetResourceInfo (RC := DXIL.sample_encoding)
      ResourceTableReader.default (Ptr (reverse sample_table) 0) 7 = Some r' ∧
    counters r = counters r' ∧
    ResourceTableReader.GetNumResources r
      = ResourceTableReader.GetNumResources r'.
Proof.
  apply (counters_ignore_record_order (RC := DXIL.sample_encoding)
           ResourceTableReader.default
           (Ptr sample_table 0) (Ptr (reverse sample_table) 0)
           sample_table (reverse sample_table)).
  - exact (array_at_whole sample_table).
  - exact (array_at_whole (reverse sample_table)).
  - symmetry. apply reverse_Permutation.
  - simpl. lia.
Defined.

(** In the ungrouped sample, [GetCBuffer(0)] is the UAV with [ID] 7. *)
Lemma GetCBuffer_misattributes_when_ungrouped_witness :
  ∃ rd',
    ResourceTableReader.SetResourceInfo (RC := DXIL.sample_encoding)
      ResourceTableReader.default (Ptr sample_ungrouped 0) 4 = Some rd' ∧
    ResourceReader.GetResourceClass (ResourceTableReader.GetCBuffer rd' 0)
      = Some 1 ∧
    ResourceReader.GetID (ResourceTableReader.GetCBuffer rd' 0) = Some 7.
Proof.
  destruct (GetCBuffer_misattributes_when_ungrouped (RC := DXIL.sample_encoding)
              sample_encoding_well_formed ResourceTableReader.default
              (Ptr sample_ungrouped 0)
              (sample_record 1 7) (sample_record 2 0)
              [sample_record 2 0; sample_record 0 0; sample_record 2 1])
    as (rd' & Hset & _ & (r & Hr & Hld) & Hcls & _).
  - discriminate.
  - apply list_elem_of_here.
  - reflexivity.
  - exact (array_at_whole sample_ungrouped).
  - simpl. lia.
  - exists rd'. split; [exact Hset|]. split; [exact Hcls|].
    unfold ResourceReader.GetID. rewrite Hld.
    injection Hr as <-. reflexivity.
Defined.

(** ** ResourceTableReader: ranges, context and views *)

Lemma wrap32_add_l (a b : Z) : wrap32 (wrap32 a + b) = wrap32 (a + b).
Proof. unfold wrap32. apply Zplus_mod_idemp_l. Qed.

(** X7. On an array grouped by class the four class ranges tile the
    table: [GetNumResources()] is the number of records, and every index
    below it is reached by exactly the class accessor whose range it
    falls into, at its offset within that range. *)
Theorem class_ranges_tile_the_table {RC : DXIL.ResourceClass}
    (Hrc : DXIL.well_formed RC) (rd : ResourceTableReader.t)
    (p : ptr RuntimeDataResourceInfo)
    (cbs smps srvs uavs : list RuntimeDataResourceInfo) :
  Forall (λ r, Class r = DXIL.CBuffer) cbs →
  Forall (λ r, Class r = DXIL.Sampler) smps →
  Forall (λ r, Class r = DXIL.SRV) srvs →
  Forall (λ r, Class r = DXIL.UAV) uavs →
  array_at p (cbs ++ smps ++ srvs ++ uavs) →
  Z.of_nat (length (cbs ++ smps ++ srvs ++ uavs)) < 2 ^ 32 →
  ∃ rd',
    ResourceTableReader.SetResourceInfo rd p
      (Z.of_nat (length (cbs ++ smps ++ srvs ++ uavs))) = Some rd' ∧
    ResourceTableReader.GetNumResources rd'
      = Z.of_nat (length (cbs ++ smps ++ srvs ++ uavs)) ∧
    ∀ k, 0 ≤ k < ResourceTableReader.GetNumResources rd' →
      let cb := ResourceTableReader.GetNumCBuffers rd' in
      let sm := ResourceTableReader.GetNumSamplers rd' in
      let sr := ResourceTableReader.GetNumSRVs rd' in
      (k < cb ∧
       ResourceTableReader.GetItem rd' k = ResourceTableReader.GetCBuffer rd' k) ∨
      (cb ≤ k < cb + sm ∧
       ResourceTableReader.GetItem rd' k
       = ResourceTableReader.GetSampler rd' (k - cb)) ∨
      (cb + sm ≤ k < cb + sm + sr ∧
       ResourceTableReader.GetItem rd' k
       = ResourceTableReader.GetSRV rd' (k - cb - sm)) ∨
      (cb + sm + sr ≤ k ∧
       ResourceTableReader.GetItem rd' k
       = ResourceTableReader.GetUAV rd' (k - cb - sm - sr)).
Proof.
  intros Hcb Hsm Hsr Hua Hp Hlen.
  eexists. split; [by apply SetResourceInfo_grouped|].
  rewrite !length_app, !Nat2Z.inj_add in *.
  assert (Htot : ResourceTableReader.GetNumResources
                   (ResourceTableReader.mk p (ResourceTableReader.m_Context rd)
                      (Z.of_nat (length cbs)) (Z.of_nat (length smps))
                      (Z.of_nat (length srvs)) (Z.of_nat (length uavs)))
                 = Z.of_nat (length cbs) + (Z.of_nat (length smps)
                   + (Z.of_nat (length srvs) + Z.of_nat (length uavs)))).
  { unfold ResourceTableReader.GetNumResources; simpl. no_wrap. lia. }
  split; [done|].
  rewrite Htot. intros k Hk.
  unfold ResourceTableReader.GetNumCBuffers, ResourceTableReader.GetNumSamplers,
    ResourceTableReader.GetNumSRVs, ResourceTableReader.GetItem,
    ResourceTableReader.GetCBuffer, ResourceTableReader.GetSampler,
    ResourceTableReader.GetSRV, ResourceTableReader.GetUAV; simpl.
  destruct (decide (k < Z.of_nat (length cbs))); [by left|right].
  destruct (decide (k < Z.of_nat (length cbs) + Z.of_nat (length smps))).
  { left. split; [lia|]. no_wrap. do 2 f_equal. lia. }
  right.
  destruct (decide (k < Z.of_nat (length cbs) + Z.of_nat (length smps)
                        + Z.of_nat (length srvs))).
  { left. split; [lia|]. no_wrap. do 2 f_equal. lia. }
  right. split; [lia|]. no_wrap. do 2 f_equal. lia.
Qed.

Lemma class_ranges_tile_the_table_witness :
  ∃ rd',
    ResourceTableReader.SetResourceInfo (RC := DXIL.sample_encoding)
      ResourceTableReader.default (Ptr sample_table 0) 7 = Some rd' ∧
    ResourceTableReader.GetNumResources rd' = 7 ∧
    ResourceTableReader.GetItem rd' 6 = ResourceTableReader.GetUAV rd' 0.
Proof.
  destruct (class_ranges_tile_the_table (RC := DXIL.sample_encoding)
              sample_encoding_well_formed ResourceTableReader.default
              (Ptr sample_table 0)
              sample_cbuffers sample_samplers sample_srvs sample_uavs)
    as (rd' & Hset & Hn & Htile).
  - repeat constructor.
  - repeat constructor.
  - repeat constructor.
  - repeat constructor.
  - exact (array_at_whole sample_table).
  - simpl. lia.
  - exists rd'. split; [exact Hset|]. split; [exact Hn|].
    assert (Hrd : rd' = ResourceTableReader.mk (Ptr sample_table 0) 0%N 2 1 3 1).
    { vm_compute in Hset. injection Hset as <-. reflexivity. }
    destruct (Htile 6) as [[Hk _]|[[Hk _]|[[Hk _]|[_ Hu]]]].
    + rewrite Hn. simpl. lia.
    + rewrite Hrd in Hk. simpl in Hk. lia.
    + rewrite Hrd in Hk. simpl in Hk. lia.
    + rewrite Hrd in Hk. simpl in Hk. lia.
    + rewrite Hrd in Hu |- *. exact Hu.
Defined.

(** X8. [SetContext] and [SetResourceInfo] may be called in either order:
    the scan keeps the context it finds and [SetContext] keeps the
    counters, and every view [GetItem] then hands out carries that
    context. *)
Theorem SetContext_commutes_with_scan {RC : DXIL.ResourceClass}
    (rd : ResourceTableReader.t) (context : addr)
    (p : ptr RuntimeDataResourceInfo) (recs : list RuntimeDataResourceInfo) :
  array_at p recs →
  Z.of_nat (length recs) < 2 ^ 32 →
  ∃ rd',
    ResourceTableReader.SetResourceInfo rd p (Z.of_nat (length recs))
      = Some rd' ∧
    ResourceTableReader.SetResourceInfo
      (ResourceTableReader.SetContext rd context) p (Z.of_nat (length recs))
      = Some (ResourceTableReader.SetContext rd' context) ∧
    counters (ResourceTableReader.SetContext rd' context) = counters rd' ∧
    ∀ i, ResourceReader.m_Context
           (ResourceTableReader.GetItem
              (ResourceTableReader.SetContext rd' context) i) = context.
Proof.
  intros Hp Hlen.
  destruct (SetResourceInfo_total rd p recs Hp Hlen) as (rd' & Hset & _).
  exists rd'. split; [done|].
  assert (Hinfo : ResourceTableReader.m_ResourceInfo rd' = p).
  { pose proof (SetResourceInfo_retarget rd rd p (Z.of_nat (length recs))) as H.
    rewrite Hset in H. simpl in H. by injection H as ->. }
  split; [|done].
  rewrite (SetResourceInfo_retarget _ rd), Hset. simpl.
  unfold ResourceTableReader.SetContext, retarget. by rewrite Hinfo.
Qed.

Lemma SetContext_commutes_with_scan_witness :
  ∃ rd',
    ResourceTableReader.SetResourceInfo (RC := DXIL.sample_encoding)
      ResourceTableReader.default (Ptr sample_table 0) 7 = Some rd' ∧
    ResourceTableReader.SetResourceInfo (RC := DXIL.sample_encoding)
      (ResourceTableReader.SetContext ResourceTableReader.default 1%N)
      (Ptr sample_table 0) 7
      = Some (ResourceTableReader.SetContext rd' 1%N).
Proof.
  destruct (SetContext_commutes_with_scan (RC := DXIL.sample_encoding)
              ResourceTableReader.default 1%N (Ptr sample_table 0) sample_table)
    as (rd' & Hset & Hset' & _).
  - exact (array_at_whole sample_table).
  - simpl. lia.
  - exists rd'. split; [exact Hset|exact Hset'].
Defined.

(** X9. The class accessors compute their offset in 32-bit arithmetic:
    for any reader, also one built with explicit counts, each returns
    [GetItem] at base plus [i] reduced modulo 2^32. *)
Theorem class_accessor_offsets_wrap (rd : ResourceTableReader.t) (i : Z) :
  let cb := ResourceTableReader.GetNumCBuffers rd in
  let sm := ResourceTableReader.GetNumSamplers rd in
  let sr := ResourceTableReader.GetNumSRVs rd in
  ResourceTableReader.GetCBuffer rd i = ResourceTableReader.GetItem rd i ∧
  ResourceTableReader.GetSampler rd i
    = ResourceTableReader.GetItem rd ((cb + i) mod 2 ^ 32) ∧
  ResourceTableReader.GetSRV rd i
    = ResourceTableReader.GetItem rd ((cb + sm + i) mod 2 ^ 32) ∧
  ResourceTableReader.GetUAV rd i
    = ResourceTableReader.GetItem rd ((cb + sm + sr + i) mod 2 ^ 32).
Proof.
  unfold ResourceTableReader.GetCBuffer, ResourceTableReader.GetSampler,
    ResourceTableReader.GetSRV, ResourceTableReader.GetUAV,
    ResourceTableReader.GetItem, ResourceTableReader.GetNumCBuffers,
    ResourceTableReader.GetNumSamplers, ResourceTableReader.GetNumSRVs, add32.
  simpl. rewrite !wrap32_add_l.
  rewrite <- (Z.add_assoc (wrap32 _) _ i), wrap32_add_l, Z.add_assoc.
  done.
Qed.

(** A reader built with a CBuffer count of [UINT_MAX]: [GetSampler(1)] is
    the handle on slot 0. *)
Example GetSampler_wraps_to_slot_0 :
  ResourceTableReader.GetSampler
    (ResourceTableReader.mk (Ptr sample_table 0) 1%N UINT_MAX 2 0 0) 1
  = ResourceTableReader.GetItem
      (ResourceTableReader.mk (Ptr sample_table 0) 1%N UINT_MAX 2 0 0) 0.
Proof. reflexivity. Qed.

(** X10. The view [GetItem(i)] hands out exposes the fields of record [i]
    through the scalar accessors, whatever the counters and the context of
    the reader; [GetName], which goes through the context, is undefined in
    every store when that context is the null pointer. *)
Theorem GetItem_exposes_record_fields (rd : ResourceTableReader.t)
    (recs : list RuntimeDataResourceInfo) (i : Z)
    (r : RuntimeDataResourceInfo) :
  array_at (ResourceTableReader.m_ResourceInfo rd) recs →
  0 ≤ i →
  recs !! Z.to_nat i = Some r →
  let v := ResourceTableReader.GetItem rd i in
  ResourceReader.GetResourceClass v = Some (Class r) ∧
  ResourceReader.GetResourceKind v = Some (Kind r) ∧
  ResourceReader.GetID v = Some (ID r) ∧
  ResourceReader.GetSpace v = Some (Space r) ∧
  ResourceReader.GetLowerBound v = Some (LowerBound r) ∧
  ResourceReader.GetUpperBound v = Some (UpperBound r) ∧
  ResourceReader.GetFlags v = Some (Flags r) ∧
  (ResourceTableReader.m_Context rd = 0%N →
   ∀ h : store, ResourceReader.GetName h v = None).
Proof.
  intros Hp Hi Hr v.
  assert (Hld : load (ResourceReader.m_ResourceInfo v) = Some r).
  { by apply (array_at_load _ _ _ _ Hp). }
  unfold ResourceReader.GetResourceClass, ResourceReader.GetResourceKind,
    ResourceReader.GetID, ResourceReader.GetSpace,
    ResourceReader.GetLowerBound, ResourceReader.GetUpperBound,
    ResourceReader.GetFlags, ResourceReader.GetName.
  rewrite Hld. repeat (split; [reflexivity|]).
  intros Hnull h. subst v. simpl. rewrite Hnull. reflexivity.
Qed.

(** Slot 9 of ten records, read through a reader whose counters are all
    zero and whose context is null. *)
Lemma GetItem_exposes_record_fields_witness :
  ResourceReader.GetID
    (ResourceTableReader.GetItem
       (ResourceTableReader.mk (Ptr (sample_table ++ sample_srvs) 0) 0%N 0 0 0 0)
       9) = Some 2 ∧
  ResourceReader.GetName ∅
    (ResourceTableReader.GetItem
       (ResourceTableReader.mk (Ptr (sample_table ++ sample_srvs) 0) 0%N 0 0 0 0)
       9) = None.
Proof.
  destruct (GetItem_exposes_record_fields
              (ResourceTableReader.mk (Ptr (sample_table ++ sample_srvs) 0)
                                      0%N 0 0 0 0)
              (sample_table ++ sample_srvs) 9 (sample_record 0 2))
    as (_ & _ & Hid & _ & _ & _ & _ & Hname).
  - exact (array_at_whole (sample_table ++ sample_srvs)).
  - lia.
  - reflexivity.
  - split; [exact Hid|]. apply Hname. reflexivity.
Defined.

(** X11. The name of resource [i]: [GetName] on the view [GetItem(i)]
    follows the reader's context to the string table and denotes the
    string stored there at the record's [Name] offset. *)
Theorem resource_name_resolves_through_context (h : store)
    (rd : ResourceTableReader.t) (recs : list RuntimeDataResourceInfo)
    (i : Z) (r : RuntimeDataResourceInfo) (ctx : RuntimeDataContext)
    (st : StringTableReader.t) (bytes : list Byte.byte) :
  array_at (ResourceTableReader.m_ResourceInfo rd) recs →
  0 ≤ i →
  recs !! Z.to_nat i = Some r →
  deref h (ResourceTableReader.m_Context rd) = Some ctx →
  pStringTableReader ctx = Some st →
  array_at (StringTableReader.m_table st) bytes →
  last bytes = Some Byte.x00 →
  0 ≤ ResourceName r < Z.of_nat (length bytes) →
  ∃ q s rest,
    ResourceReader.GetName h (ResourceTableReader.GetItem rd i) = Some q ∧
    c_str q = Some s ∧
    (Byte.x00 ∉ s) ∧
    drop (Z.to_nat (ResourceName r)) bytes = s ++ Byte.x00 :: rest.
Proof.
  intros Hp Hi Hr Hctx Hst Hb Hlast Hname.
  destruct (Get_c_str st bytes (ResourceName r) Hb Hlast Hname)
    as (s & rest & Hs & Hnul & Hd).
  exists (StringTableReader.Get st (ResourceName r)), s, rest.
  split; [|done].
  unfold ResourceReader.GetName; simpl. rewrite Hctx; simpl. rewrite Hst; simpl.
  by rewrite (array_at_load _ _ _ _ Hp Hi Hr).
Qed.

(** A resource whose [Name] is 3, in the sample store: its name is
    "cd". *)
Lemma resource_name_resolves_through_context_witness :
  ∃ q,
    ResourceReader.GetName sample_store
      (ResourceTableReader.GetItem
         (ResourceTableReader.mk (Ptr [mkResourceInfo 2 0 0 0 0 0 3 0] 0)
                                 1%N 1 0 0 0) 0) = Some q ∧
    c_str q = Some [Byte.x63; Byte.x64].
Proof.
  destruct (resource_name_resolves_through_context sample_store
              (ResourceTableReader.mk (Ptr [mkResourceInfo 2 0 0 0 0 0 3 0] 0)
                                      1%N 1 0 0 0)
              [mkResourceInfo 2 0 0 0 0 0 3 0] 0
              (mkResourceInfo 2 0 0 0 0 0 3 0)
              sample_context sample_strings
              [Byte.x61; Byte.x62; Byte.x00; Byte.x63; Byte.x64; Byte.x00])
    as (q & s & rest & Hget & _).
  - exact (array_at_whole [mkResourceInfo 2 0 0 0 0 0 3 0]).
  - lia.
  - reflexivity.
  - reflexivity.
  - reflexivity.
  - exact (array_at_whole
             [Byte.x61; Byte.x62; Byte.x00; Byte.x63; Byte.x64; Byte.x00]).
  - reflexivity.
  - simpl. lia.
  - exists q. split; [exact Hget|].
    vm_compute in Hget. injection Hget as <-. reflexivity.
Defined.

(** ** FunctionTableReader and the function views *)

(** X12. The view [FunctionTableReader::GetItem(i)] hands out exposes the
    fields of function record [i] through the scalar accessors and
    carries the reader's context; the stored function count does not
    enter. *)
Theorem function_view_exposes_record_fields (ft : FunctionTableReader.t)
    (infos : list RuntimeDataFunctionInfo) (i : Z)
    (info : RuntimeDataFunctionInfo) :
  array_at (FunctionTableReader.m_infos ft) infos →
  0 ≤ i →
  infos !! Z.to_nat i = Some info →
  let f := FunctionTableReader.GetItem ft i in
  FunctionReader.GetShaderKind f = Some (ShaderKind info) ∧
  FunctionReader.GetPayloadSizeInBytes f = Some (PayloadSizeInBytes info) ∧
  FunctionReader.GetAttributeSizeInBytes f = Some (AttributeSizeInBytes info) ∧
  FunctionReader.GetFeatureInfo1 f = Some (FeatureInfo1 info) ∧
  FunctionReader.GetFeatureInfo2 f = Some (FeatureInfo2 info) ∧
  FunctionReader.GetShaderStageFlag f = Some (ShaderStageFlag info) ∧
  FunctionReader.GetMinShaderTarget f = Some (MinShaderTarget info) ∧
  FunctionReader.m_Context f = FunctionTableReader.m_context ft.
Proof.
  intros Hp Hi Hinfo f.
  assert (Hld : load (FunctionReader.m_RuntimeDataFunctionInfo f) = Some info).
  { by apply (array_at_load _ _ _ _ Hp). }
  unfold FunctionReader.GetShaderKind, FunctionReader.GetPayloadSizeInBytes,
    FunctionReader.GetAttributeSizeInBytes, FunctionReader.GetFeatureInfo1,
    FunctionReader.GetFeatureInfo2, FunctionReader.GetShaderStageFlag,
    FunctionReader.GetMinShaderTarget.
  rewrite Hld. repeat split.
Qed.

(** Function 1 of the sample table, read through a reader whose count is
    0. *)
Lemma function_view_exposes_record_fields_witness :
  FunctionReader.GetShaderKind
    (FunctionTableReader.GetItem
       (FunctionTableReader.SetCount sample_function_table 0) 1) = Some 8 ∧
  FunctionReader.GetAttributeSizeInBytes
    (FunctionTableReader.GetItem
       (FunctionTableReader.SetCount sample_function_table 0) 1) = Some 8.
Proof.
  destruct (function_view_exposes_record_fields
              (FunctionTableReader.SetCount sample_function_table 0)
              sample_functions 1 (mkFunctionInfo 3 0 0 2 8 16 8 5 6 0 0))
    as (Hk & _ & Ha & _).
  - exact (array_at_whole sample_functions).
  - lia.
  - reflexivity.
  - split; [exact Hk|exact Ha].
Defined.

(** X13. The names of function [i]: [GetName] and [GetUnmangledName] on a
    view follow its context to the string table and denote the strings
    stored there at the record's [Name] and [UnmangledName] offsets. *)
Theorem function_names_resolve_through_context (h : store)
    (f : FunctionReader.t) (info : RuntimeDataFunctionInfo)
    (st : StringTableReader.t) (bytes : list Byte.byte) :
  load (FunctionReader.m_RuntimeDataFunctionInfo f) = Some info →
  FunctionReader.strings h f = Some st →
  array_at (StringTableReader.m_table st) bytes →
  last bytes = Some Byte.x00 →
  0 ≤ Name info < Z.of_nat (length bytes) →
  0 ≤ UnmangledName info < Z.of_nat (length bytes) →
  (∃ q s rest,
     FunctionReader.GetName h f = Some q ∧
     c_str q = Some s ∧ (Byte.x00 ∉ s) ∧
     drop (Z.to_nat (Name info)) bytes = s ++ Byte.x00 :: rest) ∧
  (∃ q s rest,
     FunctionReader.GetUnmangledName h f = Some q ∧
     c_str q = Some s ∧ (Byte.x00 ∉ s) ∧
     drop (Z.to_nat (UnmangledName info)) bytes = s ++ Byte.x00 :: rest).
Proof.
  intros Hld Hst Hb Hlast Hn Hu.
  unfold FunctionReader.GetName, FunctionReader.GetUnmangledName.
  rewrite Hst, Hld. simpl. split.
  - destruct (Get_c_str st bytes (Name info) Hb Hlast Hn)
      as (s & rest & Hs & Hnul & Hd).
    by exists (StringTableReader.Get st (Name info)), s, rest.
  - destruct (Get_c_str st bytes (UnmangledName info) Hb Hlast Hu)
      as (s & rest & Hs & Hnul & Hd).
    by exists (StringTableReader.Get st (UnmangledName info)), s, rest.
Qed.

(** Function 1 of the sample table is "cd", unmangled "ab". *)
Lemma function_names_resolve_through_context_witness :
  (∃ q, FunctionReader.GetName sample_store
          (FunctionTableReader.GetItem sample_function_table 1) = Some q ∧
        c_str q = Some [Byte.x63; Byte.x64]) ∧
  (∃ q, FunctionReader.GetUnmangledName sample_store
          (FunctionTableReader.GetItem sample_function_table 1) = Some q ∧
        c_str q = Some [Byte.x61; Byte.x62]).
Proof.
  destruct (function_names_resolve_through_context sample_store
              (FunctionTableReader.GetItem sample_function_table 1)
              (mkFunctionInfo 3 0 0 2 8 16 8 5 6 0 0) sample_strings
              [Byte.x61; Byte.x62; Byte.x00; Byte.x63; Byte.x64; Byte.x00])
    as [(q & s & rest & Hget & _) (q' & s' & rest' & Hget' & _)].
  - reflexivity.
  - reflexivity.
  - exact (array_at_whole
             [Byte.x61; Byte.x62; Byte.x00; Byte.x63; Byte.x64; Byte.x00]).
  - reflexivity.
  - simpl. lia.
  - simpl. lia.
  - split.
    + exists q. split; [exact Hget|].
      vm_compute in Hget. injection Hget as <-. reflexivity.
    + exists q'. split; [exact Hget'|].
      vm_compute in Hget'. injection Hget' as <-. reflexivity.
Defined.

(** ** Enumerating what a function references *)





(** X16. Only the count accessors look for the sentinel.  On a record
    whose row reference is [UINT_MAX], [GetResource(i)] and
    [GetDependency(i)] still read the index table at offset [UINT_MAX],
    which is out of bounds for a table whose buffer ends before that
    element, while the counts are 0. *)
Theorem element_accessors_do_not_guard_sentinel (h : store)
    (f : FunctionReader.t) (info : RuntimeDataFunctionInfo)
    (it : IndexTableReader.t) (i : Z) :
  load (FunctionReader.m_RuntimeDataFunctionInfo f) = Some info →
  FunctionReader.indices h f = Some it →
  Z.of_nat (length (buffer (IndexTableReader.m_table it)))
    ≤ index (IndexTableReader.m_table it) + UINT_MAX →
  (Resources info = UINT_MAX →
   FunctionReader.GetNumResources h f = Some 0 ∧
   FunctionReader.GetResource h f i = None) ∧
  (FunctionDependencies info = UINT_MAX →
   FunctionReader.GetNumDependencies h f = Some 0 ∧
   FunctionReader.GetDependency h f i = None).
Proof.
  intros Hld Hit Hend.
  assert (Hrow : IndexTableReader.getRow it UINT_MAX = None).
  { unfold IndexTableReader.getRow, load, ptr_add; simpl.
    case_decide; [|done].
    rewrite (proj2 (lookup_ge_None _ _)); [done|lia]. }
  unfold FunctionReader.GetNumResources, FunctionReader.GetResource,
    FunctionReader.GetNumDependencies, FunctionReader.GetDependency.
  rewrite Hld, Hit. simpl. split; intros ->.
  - rewrite decide_True by done. by rewrite Hrow.
  - rewrite decide_True by done. by rewrite Hrow.
Qed.

(** Function 0 of the sample table has no resources and no dependencies;
    asking for element 0 of either is undefined. *)
Lemma element_accessors_do_not_guard_sentinel_witness :
  FunctionReader.GetNumResources sample_store
    (FunctionTableReader.GetItem sample_function_table 0) = Some 0 ∧
  FunctionReader.GetResource sample_store
    (FunctionTableReader.GetItem sample_function_table 0) 0 = None ∧
  FunctionReader.GetNumDependencies sample_store
    (FunctionTableReader.GetItem sample_function_table 0) = Some 0 ∧
  FunctionReader.GetDependency sample_store
    (FunctionTableReader.GetItem sample_function_table 0) 0 = None.
Proof.
  destruct (element_accessors_do_not_guard_sentinel sample_store
              (FunctionTableReader.GetItem sample_function_table 0)
              (mkFunctionInfo 0 0 UINT_MAX UINT_MAX 7 0 0 1 0 0 0)
              sample_indices 0)
    as [Hres Hdep].
  - reflexivity.
  - reflexivity.
  - simpl. unfold UINT_MAX. lia.
  - destruct (Hres eq_refl) as [H1 H2]. destruct (Hdep eq_refl) as [H3 H4].
    repeat split; assumption.
Defined.
